(** * The risk engine of the log dashboard ([app.py], [compute_risk])

    A shallow embedding of the pandas pipeline that derives the seven
    behavioural signals and the risk score from a learning-platform event
    log, followed by the properties of that pipeline.

    Modelling conventions.
    - A pandas [Series] is a list of cells; a [DataFrame] is an ordered list
      of named columns with a row count. Every frame pandas builds has all
      its columns of that length ([wf]).
    - Timestamps and timedeltas are integers counting nanoseconds, as in
      pandas; the bounds of the 64-bit representation are not modelled.
    - Numeric cells carry the numeric value; the distinction pandas makes
      between int64 and float64 storage of that value is not modelled.
    - The text columns are object columns holding strings or nulls, as
      [read_csv] produces them for text.
    - The parser behind [pd.to_datetime] belongs to pandas, not to the
      program: it is a parameter, applied cell by cell.
    - [pd.Timestamp.now()] reads the wall clock of an explicit [World]. *)

From Stdlib Require Import List String Ascii ZArith Bool Lia Arith DecimalString.
Import ListNotations.
Local Open Scope string_scope.
Local Open Scope list_scope.

(** ** Cells *)

Inductive cell : Type :=
| NA                 (* NaN / None / NaT *)
| Str (s : string)
| Num (z : Z)
| Bool (b : bool)
| Ts (ns : Z).       (* a point in time, nanoseconds since the epoch *)

Definition Series := list cell.

Definition cell_eqb (a b : cell) : bool :=
  match a, b with
  | NA, NA => true
  | Str x, Str y => String.eqb x y
  | Num x, Num y => Z.eqb x y
  | Bool x, Bool y => Bool.eqb x y
  | Ts x, Ts y => Z.eqb x y
  | _, _ => false
  end.

Definition isna (c : cell) : bool :=
  match c with NA => true | _ => false end.

Definition is_true (c : cell) : bool :=
  match c with Bool true => true | _ => false end.

(** ** String helpers used by the [.str] accessor *)

(** [str(n)] for an integer. *)
Definition str_of_Z (z : Z) : string := NilZero.string_of_int (Z.to_int z).

(** Substring test: [pat in s]. *)
Fixpoint contains (pat s : string) : bool :=
  String.prefix pat s ||
  match s with
  | EmptyString => false
  | String _ t => contains pat t
  end.

Definition is_digit (c : ascii) : bool :=
  let n := nat_of_ascii c in (48 <=? n)%nat && (n <=? 57)%nat.

(** [\d+], greedy: the longest run of digits at the head, and the rest. *)
Fixpoint span_digits (s : string) : string * string :=
  match s with
  | EmptyString => (EmptyString, EmptyString)
  | String c t =>
      if is_digit c
      then let (d, r) := span_digits t in (String c d, r)
      else (EmptyString, s)
  end.

Definition digits1 (s : string) : option (string * string) :=
  match span_digits s with
  | (EmptyString, _) => None
  | (d, r) => Some (d, r)
  end.

Definition dot (s : string) : option string :=
  match s with
  | String "."%char t => Some t
  | _ => None
  end.

(** The pattern [(\d+\.\d+\.\d+)\.\d+] anchored at the head of [s]; the
    value is group 1. A run of digits followed by a literal dot leaves the
    greedy match no alternative, so no backtracking is needed. *)
Definition match_ip_block (s : string) : option string :=
  match digits1 s with
  | None => None
  | Some (d1, r1) =>
  match dot r1 with
  | None => None
  | Some r1' =>
  match digits1 r1' with
  | None => None
  | Some (d2, r2) =>
  match dot r2 with
  | None => None
  | Some r2' =>
  match digits1 r2' with
  | None => None
  | Some (d3, r3) =>
  match dot r3 with
  | None => None
  | Some r3' =>
  match digits1 r3' with
  | None => None
  | Some _ => Some (d1 ++ "." ++ d2 ++ "." ++ d3)%string
  end end end end end end end.

(** [re.search]: the leftmost position at which the pattern matches. *)
Fixpoint search_ip_block (s : string) : option string :=
  match match_ip_block s with
  | Some g => Some g
  | None =>
      match s with
      | EmptyString => None
      | String _ t => search_ip_block t
      end
  end.

(** ** Series operations *)

(** [s.eq(v)] *)
Definition series_eq (s : Series) (v : cell) : Series :=
  map (fun c => Bool (cell_eqb c v)) s.

(** [s.ne(v)]; a null differs from everything. *)
Definition series_ne (s : Series) (v : cell) : Series :=
  map (fun c => Bool (negb (cell_eqb c v) || isna c)) s.

(** [s.str.contains(pat, na=False)] for a pattern without metacharacters. *)
Definition str_contains (s : Series) (pat : string) : Series :=
  map (fun c => match c with Str x => Bool (contains pat x) | _ => Bool false end) s.

(** [s.str.extract(r"(\d+\.\d+\.\d+)\.\d+", expand=False)] *)
Definition str_extract_ip_block (s : Series) : Series :=
  map (fun c => match c with
                | Str x => match search_ip_block x with Some g => Str g | None => NA end
                | _ => NA
                end) s.

Definition cell_and (a b : cell) : cell := Bool (is_true a && is_true b).
Definition cell_not (a : cell) : cell := Bool (negb (is_true a)).

(** [a & b] on aligned boolean series. *)
Fixpoint series_and (a b : Series) : Series :=
  match a, b with
  | x :: a', y :: b' => cell_and x y :: series_and a' b'
  | _, _ => []
  end.

(** [~a] *)
Definition series_not (a : Series) : Series := map cell_not a.

(** [s >= k]; a null compares false. *)
Definition cell_ge (c : cell) (k : Z) : cell :=
  match c with
  | Num z => Bool (k <=? z)%Z
  | _ => Bool false
  end.

Definition series_ge (s : Series) (k : Z) : Series :=
  map (fun c => cell_ge c k) s.

(** [s.ge(t)] for a timestamp [t]; NaT compares false. *)
Definition series_ge_ts (s : Series) (t : Z) : Series :=
  map (fun c => match c with Ts x => Bool (t <=? x)%Z | _ => Bool false end) s.

(** [s.astype(int)] on a boolean series. The operands in [compute_risk] are
    boolean throughout; the other cases are never reached. *)
Definition astype_int (s : Series) : Series :=
  map (fun c => match c with
                | Bool b => Num (Z.b2z b)
                | Num z => Num z
                | _ => NA
                end) s.

Definition cell_add (a b : cell) : cell :=
  match a, b with
  | Num x, Num y => Num (x + y)
  | _, _ => NA
  end.

(** [a + b] on aligned numeric series. *)
Fixpoint series_add (a b : Series) : Series :=
  match a, b with
  | x :: a', y :: b' => cell_add x y :: series_add a' b'
  | _, _ => []
  end.

(** [s.isin(values)]; pandas lets a null match a null here. *)
Definition isin (s : Series) (values : list cell) : Series :=
  map (fun c => Bool (existsb (cell_eqb c) values)) s.

(** [s.unique()]: first occurrences, in order. *)
Fixpoint unique (s : list cell) : list cell :=
  match s with
  | [] => []
  | c :: t => c :: filter (fun d => negb (cell_eqb d c)) (unique t)
  end.

(** [s.fillna(0)] *)
Definition fillna0 (s : Series) : Series :=
  map (fun c => if isna c then Num 0 else c) s.

(** [s.dt.floor("5min")] *)
Definition five_minutes : Z := (5 * 60 * 1000000000)%Z.

Definition dt_floor_5min (s : Series) : Series :=
  map (fun c => match c with
                | Ts t => Ts (t - t mod five_minutes)%Z
                | _ => NA
                end) s.

(** [s[mask]]: the entries at which the aligned boolean mask is True. *)
Fixpoint select (mask : Series) (s : Series) : Series :=
  match mask, s with
  | m :: mask', c :: s' =>
      if is_true m then c :: select mask' s' else select mask' s'
  | _, _ => []
  end.

(** ** Data frames *)

Record DataFrame : Type := mkDF {
  nrows : nat;                          (* length of the index *)
  columns : list (string * Series)      (* the columns, in order *)
}.

(** Every column is as long as the index. *)
Definition wf (df : DataFrame) : Prop :=
  Forall (fun c => List.length (snd c) = nrows df) (columns df).

Definition column_names (df : DataFrame) : list string :=
  map fst (columns df).

(** Exceptions the engine can raise: a column lookup that fails. *)
Inductive exn : Type :=
| KeyError (name : string).

Inductive result (A : Type) : Type :=
| Ok (a : A)
| Err (e : exn).

Arguments Ok {A} a.
Arguments Err {A} e.

Definition bind {A B : Type} (r : result A) (k : A -> result B) : result B :=
  match r with
  | Ok a => k a
  | Err e => Err e
  end.

Notation "x <- e ;; k" := (bind e (fun x => k))
  (at level 61, e at next level, right associativity).

Fixpoint lookup_col (name : string) (cols : list (string * Series)) : option Series :=
  match cols with
  | [] => None
  | (n, s) :: rest => if String.eqb n name then Some s else lookup_col name rest
  end.

(** [df[name]], raising [KeyError] when there is no such column. *)
Definition get_col (df : DataFrame) (name : string) : result Series :=
  match lookup_col name (columns df) with
  | Some s => Ok s
  | None => Err (KeyError name)
  end.

Fixpoint put_col (name : string) (s : Series) (cols : list (string * Series))
  : list (string * Series) :=
  match cols with
  | [] => [(name, s)]
  | (n, c) :: rest =>
      if String.eqb n name then (n, s) :: rest else (n, c) :: put_col name s rest
  end.

(** [df[name] = s]: replaces the column in place, or appends a new one. *)
Definition set_col (df : DataFrame) (name : string) (s : Series) : DataFrame :=
  mkDF (nrows df) (put_col name s (columns df)).

(** [df[name] = v] for a scalar [v], broadcast along the index. *)
Definition set_col_scalar (df : DataFrame) (name : string) (v : cell) : DataFrame :=
  set_col df name (repeat v (nrows df)).

(** [df[mask]]: the rows at which the mask is True, every column kept. *)
Definition df_select (mask : Series) (df : DataFrame) : DataFrame :=
  mkDF (List.length (filter is_true mask))
       (map (fun c => (fst c, select mask (snd c))) (columns df)).

(** ** Group-by *)

Section GroupBy.
Context {K V : Type}.
Variable keq : K -> K -> bool.
Variable kna : K -> bool.

Fixpoint group_add (k : K) (v : V) (g : list (K * list V)) : list (K * list V) :=
  match g with
  | [] => [(k, [v])]
  | (k', vs) :: g' =>
      if keq k k' then (k', v :: vs) :: g' else (k', vs) :: group_add k v g'
  end.

(** The groups of a keyed list, each with its values in row order; rows
    with a null key are dropped, as pandas does by default. The order of
    the groups themselves is never observed by the engine. *)
Fixpoint groupby (kvs : list (K * V)) : list (K * list V) :=
  match kvs with
  | [] => []
  | (k, v) :: rest =>
      if kna k then groupby rest else group_add k v (groupby rest)
  end.

Fixpoint group_get {A : Type} (k : K) (g : list (K * A)) : option A :=
  match g with
  | [] => None
  | (k', a) :: g' => if keq k k' then Some a else group_get k g'
  end.
End GroupBy.

(** A series indexed by group key. *)
Definition KeyedSeries := list (cell * cell).

Definition aggregate {K : Type} (f : list cell -> cell) (g : list (K * list cell))
  : list (K * cell) :=
  map (fun kv => (fst kv, f (snd kv))) g.

Definition ts_values (vs : list cell) : list Z :=
  flat_map (fun c => match c with Ts t => [t] | _ => [] end) vs.

Definition num_values (vs : list cell) : list Z :=
  flat_map (fun c => match c with Num z => [z] | _ => [] end) vs.

(** [.min()] of a group of timestamps: nulls are skipped, and a group
    without any valid timestamp yields NaT. *)
Definition agg_min (vs : list cell) : cell :=
  match ts_values vs with
  | [] => NA
  | t :: ts => Ts (fold_right Z.min t ts)
  end.

(** [.max()] of a group of numbers. *)
Definition agg_max (vs : list cell) : cell :=
  match num_values vs with
  | [] => NA
  | z :: zs => Num (fold_right Z.max z zs)
  end.

(** [.size()] *)
Definition agg_size (vs : list cell) : cell := Num (Z.of_nat (List.length vs)).

(** [.nunique()]: distinct values, nulls not counted. *)
Definition agg_nunique (vs : list cell) : cell :=
  Num (Z.of_nat (List.length (unique (filter (fun c => negb (isna c)) vs)))).

(** [frame.groupby(key)[value].agg()] *)
Definition groupby_agg (f : list cell -> cell) (keys vals : Series) : KeyedSeries :=
  aggregate f (groupby cell_eqb isna (combine keys vals)).

(** [frame.groupby(key).size()] *)
Definition groupby_size (keys : Series) : KeyedSeries :=
  groupby_agg agg_size keys keys.

Definition pair_eqb (a b : cell * cell) : bool :=
  cell_eqb (fst a) (fst b) && cell_eqb (snd a) (snd b).

Definition pair_na (a : cell * cell) : bool := isna (fst a) || isna (snd a).

(** [frame.groupby([key1, key2]).size()]: a series with a two-level index. *)
Definition groupby2_size (keys1 keys2 : Series) : list ((cell * cell) * cell) :=
  aggregate agg_size
    (groupby pair_eqb pair_na (combine (combine keys1 keys2) keys1)).

(** [s.groupby(level 0).max()] on a series with a two-level index. *)
Definition level0_max (s : list ((cell * cell) * cell)) : KeyedSeries :=
  aggregate agg_max
    (groupby cell_eqb isna (map (fun e => (fst (fst e), snd e)) s)).

(** [s.get(k, default)] *)
Definition series_get (s : KeyedSeries) (k : cell) (default : cell) : cell :=
  match group_get cell_eqb k s with
  | Some v => v
  | None => default
  end.

(** [keys.map(s)]: look every key up in [s]; a missing key gives a null. *)
Definition series_map (keys : Series) (s : KeyedSeries) : Series :=
  map (fun k => series_get s k NA) keys.

(** ** Time *)

(** [pd.Timedelta(hours=h)], in nanoseconds. *)
Definition hours (h : Z) : Z := (h * 3600 * 1000000000)%Z.

(** Days from 1970-01-01 to the civil date [y]-[m]-[d] (proleptic
    Gregorian calendar). *)
Definition days_from_civil (y m d : Z) : Z :=
  let y' := if (m <=? 2)%Z then (y - 1)%Z else y in
  let era := (y' / 400)%Z in
  let yoe := (y' - era * 400)%Z in
  let mp := ((m + 9) mod 12)%Z in
  let doy := ((153 * mp + 2) / 5 + d - 1)%Z in
  let doe := (yoe * 365 + yoe / 4 - yoe / 100 + doy)%Z in
  (era * 146097 + doe - 719468)%Z.

(** [pd.Timestamp("y-m-d hh:mi:ss")], in nanoseconds since the epoch. *)
Definition Timestamp (y m d hh mi ss : Z) : Z :=
  ((((days_from_civil y m d * 24 + hh) * 60 + mi) * 60 + ss) * 1000000000)%Z.

(** [a - b] on timestamps; NaT propagates. *)
Definition ts_sub (a b : cell) : option Z :=
  match a, b with
  | Ts x, Ts y => Some (x - y)%Z
  | _, _ => None
  end.

(** [td.total_seconds() / 3600 <= h]. The timedelta is a whole number of
    nanoseconds and the two float divisions are monotone and exact at the
    boundary, so the test is the integer comparison with [h] hours; on NaT
    the quotient is NaN and the comparison is false. *)
Definition hours_le (td : option Z) (h : Z) : bool :=
  match td with
  | Some ns => (ns <=? hours h)%Z
  | None => false
  end.

(** The wall clock: the readings successive calls of [pd.Timestamp.now()]
    will return, and how many have been taken. *)
Record World : Type := mkWorld {
  time_at : nat -> Z;
  reads : nat
}.

Definition current_time (w : World) : Z := time_at w (reads w).

Definition Timestamp_now (w : World) : Z * World :=
  (current_time w, mkWorld (time_at w) (S (reads w))).

(** [pd.to_datetime(s, dayfirst=True, errors="coerce")] over the day-first
    parser [parse_datetime] of pandas: a string that does not parse, and a
    null, become NaT; an integer is a count of nanoseconds. *)
Definition to_datetime_cell (parse_datetime : string -> option Z) (c : cell) : cell :=
  match c with
  | Str x => match parse_datetime x with
             | Some t => Ts t
             | None => NA
             end
  | Ts t => Ts t
  | Num z => Ts z
  | _ => NA
  end.

Definition to_datetime (parse_datetime : string -> option Z) (s : Series) : Series :=
  map (to_datetime_cell parse_datetime) s.

(** ** The engine *)

Definition help_events : list cell :=
  [Str "Forum post created"; Str "Message sent"; Str "FAQ viewed"].

(** The body of [compute_risk], with its local constants [course_id],
    [assign_cmid], [deadline] and the clock reading [now] as arguments.
    Every [df[...]] of the source is a [get_col] here, in source order. *)
Definition risk_engine (parse_datetime : string -> option Z)
    (course_id assign_cmid deadline now : Z) (df_in : DataFrame)
  : result DataFrame :=
  let df := df_in in
  time_raw <- get_col df "Time" ;;
  let df := set_col df "Time" (to_datetime parse_datetime time_raw) in
  (* 1. zero-resource *)
  ev <- get_col df "Event name" ;;
  desc <- get_col df "Description" ;;
  let opened :=
    df_select (series_and (series_eq ev (Str "Course module viewed"))
                          (str_contains desc (str_of_Z assign_cmid))) df in
  opened_users <- get_col opened "User full name" ;;
  let has_opened := unique opened_users in
  users <- get_col df "User full name" ;;
  let df := set_col df "zero_resource" (series_not (isin users has_opened)) in
  (* 2. last-minute first access *)
  keys <- get_col df "User full name" ;;
  times <- get_col df "Time" ;;
  let first_access := groupby_agg agg_min keys times in
  users <- get_col df "User full name" ;;
  let df := set_col df "lastmin_first"
    (map (fun x => Bool (hours_le
                           (ts_sub (Ts deadline)
                                   (series_get first_access x (Ts deadline)))
                           24)) users) in
  (* 3. grade-book snooping *)
  times <- get_col df "Time" ;;
  let recent := df_select (series_ge_ts times (now - hours 48)) df in
  ev <- get_col recent "Event name" ;;
  let snoop := df_select (series_eq ev (Str "Grade user report viewed")) recent in
  keys <- get_col snoop "User full name" ;;
  let snoop_cnt := groupby_size keys in
  users <- get_col df "User full name" ;;
  let df := set_col df "grade_snoop" (fillna0 (series_map users snoop_cnt)) in
  (* 4. no draft + status checks *)
  ev <- get_col df "Event name" ;;
  let status :=
    df_select (series_eq ev (Str "The status of the submission has been viewed.")) df in
  keys <- get_col status "User full name" ;;
  let status_cnt := groupby_size keys in
  users <- get_col df "User full name" ;;
  let df := set_col df "status_checks" (fillna0 (series_map users status_cnt)) in
  let df := set_col_scalar df "no_draft" (Bool true) in
  (* 5. section-hopping binge *)
  times <- get_col df "Time" ;;
  let df := set_col df "minute5" (dt_floor_5min times) in
  ev <- get_col df "Event name" ;;
  let viewed := df_select (series_eq ev (Str "Course viewed")) df in
  keys1 <- get_col viewed "User full name" ;;
  keys2 <- get_col viewed "minute5" ;;
  let hop := groupby2_size keys1 keys2 in
  let binge := level0_max hop in
  users <- get_col df "User full name" ;;
  let df := set_col df "hop_binge" (fillna0 (series_map users binge)) in
  (* 6. help silence *)
  ev <- get_col df "Event name" ;;
  let help_rows := df_select (isin ev help_events) df in
  help_users <- get_col help_rows "User full name" ;;
  let helped := unique help_users in
  users <- get_col df "User full name" ;;
  let df := set_col df "help_count" (isin users helped) in
  (* 7. geo jumps *)
  ip <- get_col df "IP address" ;;
  let df := set_col df "ip_block" (str_extract_ip_block ip) in
  ip <- get_col df "IP address" ;;
  let with_ip := df_select (series_ne ip (Str "")) df in
  keys <- get_col with_ip "User full name" ;;
  blocks <- get_col with_ip "ip_block" ;;
  let geo := groupby_agg agg_nunique keys blocks in
  users <- get_col df "User full name" ;;
  let df := set_col df "geo_jumps" (fillna0 (series_map users geo)) in
  (* assemble score *)
  zero_resource <- get_col df "zero_resource" ;;
  lastmin_first <- get_col df "lastmin_first" ;;
  grade_snoop <- get_col df "grade_snoop" ;;
  no_draft <- get_col df "no_draft" ;;
  status_checks <- get_col df "status_checks" ;;
  hop_binge <- get_col df "hop_binge" ;;
  help_count <- get_col df "help_count" ;;
  geo_jumps <- get_col df "geo_jumps" ;;
  let df := set_col df "risk_score"
    (series_add (series_add (series_add (series_add (series_add (series_add
       (astype_int zero_resource)
       (astype_int lastmin_first))
       (astype_int (series_ge grade_snoop 3)))
       (astype_int (series_and no_draft (series_ge status_checks 4))))
       (astype_int (series_ge hop_binge 5)))
       (astype_int (series_not help_count)))
       (astype_int (series_ge geo_jumps 2))) in
  Ok df.

(** [compute_risk(df)]: the constants of the source, and one reading of the
    wall clock. *)
Definition compute_risk (parse_datetime : string -> option Z)
    (df : DataFrame) (w : World) : result DataFrame * World :=
  let course_id := 83%Z in
  let assign_cmid := 2889%Z in
  let deadline := Timestamp 2025 12 17 23 59 59 in
  let (now, w') := Timestamp_now w in
  (risk_engine parse_datetime course_id assign_cmid deadline now df, w').

(** ** A concrete day-first parser, for running the engine on examples *)

Fixpoint digits_to_Z (acc : Z) (s : string) : option Z :=
  match s with
  | EmptyString => Some acc
  | String c t =>
      if is_digit c
      then digits_to_Z (10 * acc + Z.of_nat (nat_of_ascii c - 48)) t
      else None
  end.

Definition field (s : string) (pos len : nat) : option Z :=
  digits_to_Z 0 (substring pos len s).

(** Parses the fixed layout [DD/MM/YYYY HH:MM:SS]. *)
Definition parse_dmy_hms (s : string) : option Z :=
  if (String.length s =? 19)%nat
     && String.eqb (substring 2 1 s) "/" && String.eqb (substring 5 1 s) "/"
     && String.eqb (substring 10 1 s) " "
     && String.eqb (substring 13 1 s) ":" && String.eqb (substring 16 1 s) ":"
  then
    match field s 0 2, field s 3 2, field s 6 4,
          field s 11 2, field s 14 2, field s 17 2 with
    | Some d, Some m, Some y, Some hh, Some mi, Some ss =>
        if ((1 <=? m) && (m <=? 12) && (1 <=? d) && (d <=? 31)
            && (hh <? 24) && (mi <? 60) && (ss <? 60))%Z
        then Some (Timestamp y m d hh mi ss)
        else None
    | _, _, _, _, _, _ => None
    end
  else None.

(** ** Reading the output table *)

(** The cell of column [col] in row [i] (a null where there is none). *)
Definition cell_at (df : DataFrame) (col : string) (i : nat) : cell :=
  match lookup_col col (columns df) with
  | Some s => nth i s NA
  | None => NA
  end.


(** The columns [compute_risk] reads, in the order it first reads them. *)
Definition required_columns : list string :=
  ["Time"; "Event name"; "Description"; "User full name"; "IP address"].

(** The columns [compute_risk] writes, in the order it first writes them. *)
Definition derived_columns : list string :=
  ["zero_resource"; "lastmin_first"; "grade_snoop"; "status_checks";
   "no_draft"; "minute5"; "hop_binge"; "help_count"; "ip_block";
   "geo_jumps"; "risk_score"].

Definition has_column (df : DataFrame) (name : string) : bool :=
  match lookup_col name (columns df) with Some _ => true | None => false end.

Definition has_required (df : DataFrame) : bool :=
  forallb (has_column df) required_columns.


Definition sum_Z (l : list Z) : Z := fold_right Z.add 0%Z l.










(** ** The row view of a log

    The five columns the engine reads, zipped into events. The time of an
    event is the parsed one. *)

Record Event : Type := mkEvent {
  ev_user : cell;
  ev_time : cell;
  ev_name : cell;
  ev_desc : cell;
  ev_ip : cell
}.

Fixpoint events (users times names descs ips : Series) : list Event :=
  match users, times, names, descs, ips with
  | u :: us, t :: ts, n :: ns, d :: ds, a :: aa =>
      mkEvent u t n d a :: events us ts ns ds aa
  | _, _, _, _, _ => []
  end.

Definition no_event : Event := mkEvent NA NA NA NA NA.

Definition same_user (u : cell) (r : Event) : bool := cell_eqb (ev_user r) u.

Definition rows_of (u : cell) (rs : list Event) : list Event :=
  filter (same_user u) rs.

(** The group of [u] under a group-by on the user: its rows, none for a
    null key. *)
Definition group_of (u : cell) (rs : list Event) : list Event :=
  if isna u then [] else rows_of u rs.

Definition opened_row (a : Z) (r : Event) : bool :=
  cell_eqb (ev_name r) (Str "Course module viewed")
  && match ev_desc r with Str x => contains (str_of_Z a) x | _ => false end.

Definition recent_row (now : Z) (r : Event) : bool :=
  match ev_time r with Ts x => (now - hours 48 <=? x)%Z | _ => false end.

Definition grade_row (r : Event) : bool :=
  cell_eqb (ev_name r) (Str "Grade user report viewed").

Definition status_row (r : Event) : bool :=
  cell_eqb (ev_name r) (Str "The status of the submission has been viewed.").

Definition viewed_row (r : Event) : bool :=
  cell_eqb (ev_name r) (Str "Course viewed").

Definition help_row (r : Event) : bool :=
  existsb (cell_eqb (ev_name r)) help_events.

Definition ip_row (r : Event) : bool :=
  negb (cell_eqb (ev_ip r) (Str "")) || isna (ev_ip r).

Definition minute5_of (r : Event) : cell :=
  match ev_time r with Ts t => Ts (t - t mod five_minutes)%Z | _ => NA end.

Definition ip_block_of (r : Event) : cell :=
  match ev_ip r with
  | Str x => match search_ip_block x with Some g => Str g | None => NA end
  | _ => NA
  end.

Definition fill0 (c : cell) : cell := if isna c then Num 0 else c.

(** The seven signals of user [u] over the events [rs]. *)
Definition zero_resource_of (a : Z) (rs : list Event) (u : cell) : cell :=
  Bool (negb (existsb (same_user u) (filter (opened_row a) rs))).

Definition lastmin_first_of (d : Z) (rs : list Event) (u : cell) : cell :=
  Bool (hours_le
          (ts_sub (Ts d)
                  (match group_of u rs with
                   | [] => Ts d
                   | g => agg_min (map ev_time g)
                   end))
          24).

Definition grade_snoop_of (now : Z) (rs : list Event) (u : cell) : cell :=
  Num (Z.of_nat (List.length
                   (group_of u (filter grade_row (filter (recent_row now) rs))))).

Definition status_checks_of (rs : list Event) (u : cell) : cell :=
  Num (Z.of_nat (List.length (group_of u (filter status_row rs)))).

Definition hop_of (rs : list Event) : list ((cell * cell) * cell) :=
  aggregate agg_size
    (groupby pair_eqb pair_na
       (map (fun r => ((ev_user r, minute5_of r), ev_user r))
            (filter viewed_row rs))).

Definition hop_binge_of (rs : list Event) (u : cell) : cell :=
  fill0 (series_get (level0_max (hop_of rs)) u NA).

Definition help_count_of (rs : list Event) (u : cell) : cell :=
  Bool (existsb (same_user u) (filter help_row rs)).

Definition geo_jumps_of (rs : list Event) (u : cell) : cell :=
  match group_of u (filter ip_row rs) with
  | [] => Num 0
  | g => agg_nunique (map ip_block_of g)
  end.

Definition astype_int_cell (c : cell) : cell :=
  match c with
  | Bool b => Num (Z.b2z b)
  | Num z => Num z
  | _ => NA
  end.

Definition risk_score_of (a d now : Z) (rs : list Event) (u : cell) : cell :=
  cell_add (cell_add (cell_add (cell_add (cell_add (cell_add
    (astype_int_cell (zero_resource_of a rs u))
    (astype_int_cell (lastmin_first_of d rs u)))
    (astype_int_cell (cell_ge (grade_snoop_of now rs u) 3)))
    (astype_int_cell (cell_and (Bool true) (cell_ge (status_checks_of rs u) 4))))
    (astype_int_cell (cell_ge (hop_binge_of rs u) 5)))
    (astype_int_cell (cell_not (help_count_of rs u))))
    (astype_int_cell (cell_ge (geo_jumps_of rs u) 2)).

Definition per_user (f : cell -> cell) (rs : list Event) : Series :=
  map (fun r => f (ev_user r)) rs.

(** The table the engine builds from [df], in terms of the events [rs]. *)
Definition augmented (a d now : Z) (df : DataFrame) (rs : list Event) : DataFrame :=
  let df := set_col df "Time" (map ev_time rs) in
  let df := set_col df "zero_resource" (per_user (zero_resource_of a rs) rs) in
  let df := set_col df "lastmin_first" (per_user (lastmin_first_of d rs) rs) in
  let df := set_col df "grade_snoop" (per_user (grade_snoop_of now rs) rs) in
  let df := set_col df "status_checks" (per_user (status_checks_of rs) rs) in
  let df := set_col df "no_draft" (map (fun _ => Bool true) rs) in
  let df := set_col df "minute5" (map minute5_of rs) in
  let df := set_col df "hop_binge" (per_user (hop_binge_of rs) rs) in
  let df := set_col df "help_count" (per_user (help_count_of rs) rs) in
  let df := set_col df "ip_block" (map ip_block_of rs) in
  let df := set_col df "geo_jumps" (per_user (geo_jumps_of rs) rs) in
  set_col df "risk_score" (per_user (risk_score_of a d now rs) rs).

(** The events of a log that has the five columns. *)
Definition events_of (parse_datetime : string -> option Z) (df : DataFrame)
  : list Event :=
  match lookup_col "User full name" (columns df),
        lookup_col "Time" (columns df),
        lookup_col "Event name" (columns df),
        lookup_col "Description" (columns df),
        lookup_col "IP address" (columns df) with
  | Some users, Some times, Some names, Some descs, Some ips =>
      events users (to_datetime parse_datetime times) names descs ips
  | _, _, _, _, _ => []
  end.

(** ** Sample logs and clocks *)

Definition demo_log : DataFrame := mkDF 4
  [("Time", [Str "17/12/2025 10:00:00"; Str "no time"; Str "10/12/2025 09:00:00";
             Str "17/12/2025 11:00:00"]);
   ("User full name", [Str "alice"; Str "alice"; Str "bob"; Str "bob"]);
   ("Event name", [Str "Course module viewed"; Str "Course viewed";
                   Str "Grade user report viewed"; Str "Message sent"]);
   ("Description", [Str "The user viewed the module with id '2889'."; NA;
                    Str "grades"; Str ""]);
   ("IP address", [Str "10.0.0.5"; Str "10.0.1.9"; Str ""; NA])].


(** The headers of [demo_log] and no rows. *)
Definition empty_log : DataFrame := mkDF 0
  [("Time", []); ("User full name", []); ("Event name", []);
   ("Description", []); ("IP address", [])].

(** A clock that stands at 2025-12-11 00:00:00. *)
Definition demo_world : World :=
  mkWorld (fun _ => Timestamp 2025 12 11 0 0 0) 0.

(** A clock that shows the same time now and runs on afterwards. *)
Definition demo_world_running : World :=
  mkWorld (fun n => (Timestamp 2025 12 11 0 0 0 + Z.of_nat n - 3)%Z) 3.



(** What [compute_risk] returns on [demo_log] under [demo_world]. *)
Definition demo_result : result DataFrame :=
  fst (compute_risk parse_dmy_hms demo_log demo_world).

From Stdlib Require Import Permutation Sorted.

(** ** More readings of the output table *)








(** The columns that hold one value per user. *)
Definition per_user_columns : list string :=
  ["zero_resource"; "lastmin_first"; "grade_snoop"; "status_checks";
   "no_draft"; "hop_binge"; "help_count"; "geo_jumps"; "risk_score"].

(** A non-empty string of decimal digits. *)
Fixpoint only_digits (s : string) : bool :=
  match s with
  | EmptyString => true
  | String c t => is_digit c && only_digits t
  end.

Definition digit_run (s : string) : bool :=
  negb (String.eqb s "") && only_digits s.

(** ** The table of students at risk (section 2-b of the page) *)

(** [df[[c1, c2]]], row by row. *)
Definition two_columns (df : DataFrame) (c1 c2 : string) : result (list (cell * cell)) :=
  a <- get_col df c1 ;;
  b <- get_col df c2 ;;
  Ok (combine a b).

(** [.drop_duplicates()]: the first occurrence of every row is kept. *)
Fixpoint drop_duplicates (l : list (cell * cell)) : list (cell * cell) :=
  match l with
  | [] => []
  | x :: t => x :: filter (fun y => negb (pair_eqb y x)) (drop_duplicates t)
  end.

(** The score of a (user, score) row. *)
Definition score_of (row : cell * cell) : Z :=
  match snd row with Num z => z | _ => 0%Z end.

(** [.query("risk_score >= @risk_cut")] *)
Definition score_ge (risk_cut : Z) (row : cell * cell) : bool :=
  is_true (cell_ge (snd row) risk_cut).

(** [risky]: the two columns, without duplicate rows, sorted by falling
    score, cut at [risk_cut]. The sort of pandas is a parameter: how it
    orders rows of equal score is not specified. *)
Definition risky_table (sort_values : list (cell * cell) -> list (cell * cell))
    (df_risk : DataFrame) (risk_cut : Z) : result (list (cell * cell)) :=
  rows <- two_columns df_risk "User full name" "risk_score" ;;
  Ok (filter (score_ge risk_cut) (sort_values (drop_duplicates rows))).

(** [compute_risk] followed by the construction of [risky]. *)
Definition risky_of (parse_datetime : string -> option Z)
    (sort_values : list (cell * cell) -> list (cell * cell))
    (df_raw : DataFrame) (w : World) (risk_cut : Z) : result (list (cell * cell)) :=
  df_risk <- fst (compute_risk parse_datetime df_raw w) ;;
  risky_table sort_values df_risk risk_cut.

(** Rows in the order of falling score. *)
Definition falling (a b : cell * cell) : Prop := (score_of b <= score_of a)%Z.

(** One sort by falling score: insertion sort. *)
Fixpoint insert_falling (x : cell * cell) (l : list (cell * cell)) : list (cell * cell) :=
  match l with
  | [] => [x]
  | y :: t => if (score_of y <=? score_of x)%Z then x :: y :: t
              else y :: insert_falling x t
  end.

Fixpoint sort_falling (l : list (cell * cell)) : list (cell * cell) :=
  match l with
  | [] => []
  | x :: t => insert_falling x (sort_falling t)
  end.

(** ** The unique-value counter (section 1 of the page) *)

(** [df.columns = df.columns.str.strip()], over the [strip] of Python. *)
Definition strip_columns (strip : string -> string) (df : DataFrame) : DataFrame :=
  mkDF (nrows df) (map (fun c => (strip (fst c), snd c)) (columns df)).

(** [df.drop(columns=[name], errors="ignore")] *)
Definition drop_column (name : string) (df : DataFrame) : DataFrame :=
  mkDF (nrows df) (filter (fun c => negb (String.eqb (fst c) name)) (columns df)).

(** [s.dropna().unique()] *)
Definition dropna_unique (s : Series) : list cell :=
  unique (filter (fun c => negb (isna c)) s).

(** [df.nunique()]: for every column, the number of distinct non-null
    values. *)
Definition nunique (df : DataFrame) : list (string * nat) :=
  map (fun c => (fst c, List.length (dropna_unique (snd c)))) (columns df).

Definition lower_char (c : ascii) : ascii :=
  let n := nat_of_ascii c in
  if (65 <=? n)%nat && (n <=? 90)%nat then ascii_of_nat (n + 32) else c.

(** [s.lower()]; only the letters A to Z matter to the search for "event",
    and the bytes of other characters stay as they are. *)
Fixpoint lower (s : string) : string :=
  match s with
  | EmptyString => EmptyString
  | String c t => String (lower_char c) (lower t)
  end.

(** [event_cols]: the columns whose name mentions "event", or the three
    fallback names when there is none. *)
Definition event_cols (names : list string) : list string :=
  match filter (fun c => contains "event" (lower c)) names with
  | [] => ["Event context"; "Event name"; "Description"]
  | cols => cols
  end.

(** The tables of unique values the expander shows: one for every name of
    [event_cols] that is a column. *)
Definition shown_uniques (df_for_uniq : DataFrame) : list (string * list cell) :=
  flat_map (fun col => match lookup_col col (columns df_for_uniq) with
                       | Some s => [(col, dropna_unique s)]
                       | None => []
                       end)
           (event_cols (column_names df_for_uniq)).

(** Section 1 of the page on the raw table: the counts it shows and the
    unique values it lists. *)
Definition unique_value_counter (strip : string -> string) (df_raw : DataFrame)
  : list (string * nat) * list (string * list cell) :=
  let df_raw := strip_columns strip df_raw in
  let df_for_uniq := drop_column "Time" df_raw in
  (nunique df_for_uniq, shown_uniques df_for_uniq).

(** A log whose column names carry blanks, and a [strip] for them. *)
Definition padded_log : DataFrame := mkDF 3
  [(" Time", [Str "17/12/2025 10:00:00"; Str "17/12/2025 10:00:00"; NA]);
   ("User full name ", [Str "alice"; Str "bob"; Str "alice"]);
   ("Event name", [Str "Course viewed"; Str "Course viewed"; NA]);
   ("EVENT context", [Str "Course: HVEC702"; NA; NA])].

Fixpoint strip_left (s : string) : string :=
  match s with
  | String " "%char t => strip_left t
  | _ => s
  end.

Fixpoint reverse (s : string) : string :=
  match s with
  | EmptyString => EmptyString
  | String c t => (reverse t ++ String c EmptyString)%string
  end.

(** Removes the blanks at both ends. *)
Definition strip_blanks (s : string) : string :=
  reverse (strip_left (reverse (strip_left s))).

(** * Properties *)

(** ** The embedding at work *)

Example deadline_in_nanoseconds :
  Timestamp 2025 12 17 23 59 59 = 1766015999000000000%Z.
Proof. reflexivity. Qed.

Example parse_day_first :
  parse_dmy_hms "17/12/2025 23:59:59" = Some 1766015999000000000%Z.
Proof. reflexivity. Qed.

Example parse_failure : parse_dmy_hms "no time" = None.
Proof. reflexivity. Qed.

Example ip_block_of_dotted_quad : search_ip_block "10.0.0.5" = Some "10.0.0".
Proof. reflexivity. Qed.

Example ip_block_leftmost_match :
  search_ip_block "x1.2.y.33.44.55.66z" = Some "33.44.55".
Proof. reflexivity. Qed.

Example ip_block_needs_four_fields : search_ip_block "1.2.3" = None.
Proof. reflexivity. Qed.

Example module_id_as_text : str_of_Z 2889 = "2889".
Proof. reflexivity. Qed.

Example description_mentions_module :
  contains "2889" "The user viewed the module with id '2889'." = true.
Proof. reflexivity. Qed.

(** The sample log, run through the engine: alice opened module 2889 and
    was seen from two networks; bob viewed the grade report once within 48
    hours and sent a message. *)
Example demo_result_table :
  demo_result =
  Ok (mkDF 4
    [("Time", [Ts 1765965600000000000; NA; Ts 1765357200000000000;
               Ts 1765969200000000000]);
     ("User full name", [Str "alice"; Str "alice"; Str "bob"; Str "bob"]);
     ("Event name", [Str "Course module viewed"; Str "Course viewed";
                     Str "Grade user report viewed"; Str "Message sent"]);
     ("Description", [Str "The user viewed the module with id '2889'."; NA;
                      Str "grades"; Str ""]);
     ("IP address", [Str "10.0.0.5"; Str "10.0.1.9"; Str ""; NA]);
     ("zero_resource", [Bool false; Bool false; Bool true; Bool true]);
     ("lastmin_first", [Bool true; Bool true; Bool false; Bool false]);
     ("grade_snoop", [Num 0; Num 0; Num 1; Num 1]);
     ("status_checks", [Num 0; Num 0; Num 0; Num 0]);
     ("no_draft", [Bool true; Bool true; Bool true; Bool true]);
     ("minute5", [Ts 1765965600000000000; NA; Ts 1765357200000000000;
                  Ts 1765969200000000000]);
     ("hop_binge", [Num 0; Num 0; Num 0; Num 0]);
     ("help_count", [Bool false; Bool false; Bool true; Bool true]);
     ("ip_block", [Str "10.0.0"; Str "10.0.1"; NA; NA]);
     ("geo_jumps", [Num 2; Num 2; Num 0; Num 0]);
     ("risk_score", [Num 3; Num 3; Num 1; Num 1])]).
Proof. vm_compute. reflexivity. Qed.

Example missing_description_raises :
  fst (compute_risk parse_dmy_hms (mkDF 0 [("Time", []); ("Event name", [])])
                    demo_world)
  = Err (KeyError "Description").
Proof. reflexivity. Qed.

(** ** Cells and lists *)

Lemma cell_eqb_eq (a b : cell) : cell_eqb a b = true <-> a = b.
Proof.
  destruct a, b; simpl; split; intro H; try discriminate; try reflexivity.
  - apply String.eqb_eq in H. congruence.
  - inversion H. apply String.eqb_refl.
  - apply Z.eqb_eq in H. congruence.
  - inversion H. apply Z.eqb_refl.
  - apply Bool.eqb_prop in H. congruence.
  - inversion H. apply Bool.eqb_reflx.
  - apply Z.eqb_eq in H. congruence.
  - inversion H. apply Z.eqb_refl.
Qed.

Lemma cell_eqb_refl (a : cell) : cell_eqb a a = true.
Proof. apply cell_eqb_eq. reflexivity. Qed.

Lemma cell_eqb_sym (a b : cell) : cell_eqb a b = cell_eqb b a.
Proof.
  destruct (cell_eqb a b) eqn:E.
  - apply cell_eqb_eq in E. subst. symmetry. apply cell_eqb_refl.
  - destruct (cell_eqb b a) eqn:E'; [|reflexivity].
    apply cell_eqb_eq in E'. subst. rewrite cell_eqb_refl in E. discriminate.
Qed.

Lemma pair_eqb_eq (a b : cell * cell) : pair_eqb a b = true <-> a = b.
Proof.
  destruct a as [a1 a2], b as [b1 b2]. unfold pair_eqb. simpl.
  rewrite andb_true_iff, !cell_eqb_eq. split.
  - intros [-> ->]. reflexivity.
  - intros H. inversion H. auto.
Qed.

Lemma series_and_map {A : Type} (f g : A -> cell) (l : list A) :
  series_and (map f l) (map g l) = map (fun r => cell_and (f r) (g r)) l.
Proof. induction l; simpl; congruence. Qed.

Lemma series_add_map {A : Type} (f g : A -> cell) (l : list A) :
  series_add (map f l) (map g l) = map (fun r => cell_add (f r) (g r)) l.
Proof. induction l; simpl; congruence. Qed.

Lemma select_map {A : Type} (m f : A -> cell) (l : list A) :
  select (map m l) (map f l) = map f (filter (fun r => is_true (m r)) l).
Proof.
  induction l as [|x l IH]; simpl; [reflexivity|].
  destruct (is_true (m x)); simpl; congruence.
Qed.

Lemma combine_map {A B C : Type} (f : A -> B) (g : A -> C) (l : list A) :
  combine (map f l) (map g l) = map (fun r => (f r, g r)) l.
Proof. induction l; simpl; congruence. Qed.

Lemma repeat_map {A B : Type} (v : B) (l : list A) :
  repeat v (List.length l) = map (fun _ => v) l.
Proof. induction l; simpl; congruence. Qed.

Lemma select_length (m s : Series) :
  List.length m = List.length s ->
  List.length (select m s) = List.length (filter is_true m).
Proof.
  revert s. induction m as [|x m IH]; intros [|c s] H; simpl in *; try discriminate;
    [reflexivity|].
  destruct (is_true x); simpl; rewrite IH by lia; reflexivity.
Qed.



Lemma existsb_filter {A : Type} (f p : A -> bool) (l : list A) :
  existsb f (filter p l) = existsb (fun x => p x && f x) l.
Proof.
  induction l as [|x l IH]; simpl; [reflexivity|].
  destruct (p x); simpl; rewrite IH; reflexivity.
Qed.

Lemma existsb_ext' {A : Type} (f g : A -> bool) (l : list A) :
  (forall x, f x = g x) -> existsb f l = existsb g l.
Proof. intros H. induction l; simpl; [reflexivity|]. rewrite H, IHl. reflexivity. Qed.

Lemma existsb_unique (u : cell) (l : list cell) :
  existsb (cell_eqb u) (unique l) = existsb (cell_eqb u) l.
Proof.
  induction l as [|c l IH]; simpl; [reflexivity|].
  rewrite existsb_filter. rewrite <- IH.
  destruct (cell_eqb u c) eqn:E; simpl; [reflexivity|].
  apply existsb_ext'. intros d.
  destruct (cell_eqb u d) eqn:E'; [|apply andb_false_r].
  apply cell_eqb_eq in E'. subst d. rewrite E. reflexivity.
Qed.

Lemma existsb_map {A B : Type} (f : B -> bool) (g : A -> B) (l : list A) :
  existsb f (map g l) = existsb (fun x => f (g x)) l.
Proof. induction l; simpl; congruence. Qed.




(** ** Columns *)

Lemma lookup_put_col (n n' : string) (s : Series) (cols : list (string * Series)) :
  lookup_col n' (put_col n s cols) =
  if String.eqb n n' then Some s else lookup_col n' cols.
Proof.
  induction cols as [|[k c] cols IH]; simpl.
  - destruct (String.eqb n n'); reflexivity.
  - destruct (String.eqb k n) eqn:E; simpl.
    + apply String.eqb_eq in E. subst k.
      destruct (String.eqb n n'); reflexivity.
    + rewrite IH. destruct (String.eqb k n') eqn:E'; [|reflexivity].
      apply String.eqb_eq in E'. subst k. rewrite String.eqb_sym, E. reflexivity.
Qed.

Lemma get_col_set_col (df : DataFrame) (n n' : string) (s : Series) :
  get_col (set_col df n s) n' =
  if String.eqb n n' then Ok s else get_col df n'.
Proof.
  unfold get_col, set_col. simpl. rewrite lookup_put_col.
  destruct (String.eqb n n'); reflexivity.
Qed.

Lemma lookup_select (m : Series) (n : string) (cols : list (string * Series)) :
  lookup_col n (map (fun c => (fst c, select m (snd c))) cols) =
  option_map (select m) (lookup_col n cols).
Proof.
  induction cols as [|[k c] cols IH]; simpl; [reflexivity|].
  destruct (String.eqb k n); [reflexivity|exact IH].
Qed.

Lemma get_col_df_select (m : Series) (df : DataFrame) (n : string) :
  get_col (df_select m df) n = (s <- get_col df n ;; Ok (select m s)).
Proof.
  unfold get_col, df_select. simpl. rewrite lookup_select.
  destruct (lookup_col n (columns df)); reflexivity.
Qed.

Lemma column_names_put_col (n : string) (s : Series) (cols : list (string * Series)) :
  map fst (put_col n s cols) =
  if existsb (String.eqb n) (map fst cols) then map fst cols else map fst cols ++ [n].
Proof.
  induction cols as [|[k c] cols IH]; simpl; [reflexivity|].
  rewrite (String.eqb_sym n k).
  destruct (String.eqb k n) eqn:E; simpl; [reflexivity|].
  rewrite IH. destruct (existsb (String.eqb n) (map fst cols)); reflexivity.
Qed.



Lemma wf_set_col (df : DataFrame) (n : string) (s : Series) :
  wf df -> List.length s = nrows df -> wf (set_col df n s).
Proof.
  unfold wf, set_col. simpl. intros H L.
  induction (columns df) as [|[k c] cols IH]; simpl.
  - constructor; [exact L|constructor].
  - inversion H; subst. destruct (String.eqb k n).
    + constructor; assumption.
    + constructor; [assumption|apply IH; assumption].
Qed.

Lemma wf_lookup (df : DataFrame) (n : string) (s : Series) :
  wf df -> lookup_col n (columns df) = Some s -> List.length s = nrows df.
Proof.
  unfold wf. intros H. induction (columns df) as [|[k c] cols IH]; simpl; [discriminate|].
  inversion H; subst. destruct (String.eqb k n).
  - intros E. inversion E. subst. assumption.
  - apply IH. assumption.
Qed.

Lemma wf_df_select (m : Series) (df : DataFrame) :
  wf df -> List.length m = nrows df -> wf (df_select m df).
Proof.
  unfold wf, df_select. simpl. intros H L.
  induction (columns df) as [|[k c] cols IH]; simpl; constructor.
  - inversion H; subst. simpl in *. apply select_length. lia.
  - apply IH. inversion H; assumption.
Qed.

(** ** Group-by *)

Lemma filter_map_comm {A B : Type} (p : B -> bool) (f : A -> B) (l : list A) :
  filter p (map f l) = map f (filter (fun x => p (f x)) l).
Proof.
  induction l as [|x l IH]; simpl; [reflexivity|].
  destruct (p (f x)); simpl; rewrite IH; reflexivity.
Qed.

Section GroupByFacts.
Context {K V : Type}.
Variable keq : K -> K -> bool.
Variable kna : K -> bool.
Hypothesis keq_eq : forall a b, keq a b = true <-> a = b.

Lemma keq_refl (a : K) : keq a a = true.
  Proof. apply keq_eq. reflexivity. Qed.

Lemma group_get_group_add (k k0 : K) (v : V) (g : list (K * list V)) :
    group_get keq k (group_add keq k0 v g) =
    if keq k k0
    then Some (v :: match group_get keq k g with Some vs => vs | None => [] end)
    else group_get keq k g.
  Proof.
    induction g as [|[k' vs] g IH]; simpl.
    - destruct (keq k k0); reflexivity.
    - destruct (keq k0 k') eqn:E0; simpl.
      + apply keq_eq in E0. subst k'.
        destruct (keq k k0); reflexivity.
      + rewrite IH. destruct (keq k k0) eqn:E; [|reflexivity].
        apply keq_eq in E. subst k0. rewrite E0. reflexivity.
  Qed.

Lemma group_get_groupby (k : K) (kvs : list (K * V)) :
    group_get keq k (groupby keq kna kvs) =
    if kna k then None
    else match map snd (filter (fun kv => keq (fst kv) k) kvs) with
         | [] => None
         | vs => Some vs
         end.
  Proof.
    induction kvs as [|[k0 v] kvs IH]; simpl.
    - destruct (kna k); reflexivity.
    - destruct (kna k0) eqn:N0.
      + rewrite IH. destruct (keq k0 k) eqn:E; [|reflexivity].
        apply keq_eq in E. subst k0. rewrite N0. reflexivity.
      + rewrite group_get_group_add, IH.
        destruct (keq k k0) eqn:E.
        * apply keq_eq in E. subst k0. rewrite N0, keq_refl. simpl.
          destruct (map snd (filter (fun kv => keq (fst kv) k) kvs)); reflexivity.
        * destruct (keq k0 k) eqn:E'; [|reflexivity].
          apply keq_eq in E'. subst k0. rewrite keq_refl in E. discriminate.
  Qed.

Lemma group_get_aggregate {A B : Type} (f : A -> B) (k : K) (g : list (K * A)) :
    group_get keq k (map (fun kv => (fst kv, f (snd kv))) g) =
    option_map f (group_get keq k g).
  Proof.
    induction g as [|[k' a] g IH]; simpl; [reflexivity|].
    destruct (keq k k'); [reflexivity|exact IH].
  Qed.


End GroupByFacts.


(** The value a group-by on the user holds for [u]: the aggregate of the
    group of [u], or the default when [u] has no group. *)
Lemma series_get_groupby_agg (f : list cell -> cell) (v : Event -> cell)
    (l : list Event) (u dflt : cell) :
  series_get (groupby_agg f (map ev_user l) (map v l)) u dflt =
  match group_of u l with
  | [] => dflt
  | g => f (map v g)
  end.
Proof.
  unfold series_get, groupby_agg, aggregate.
  rewrite (group_get_aggregate cell_eqb).
  rewrite (group_get_groupby cell_eqb isna cell_eqb_eq).
  rewrite combine_map, filter_map_comm, map_map. simpl.
  unfold group_of, rows_of, same_user.
  destruct (isna u); [reflexivity|].
  destruct (filter (fun r => cell_eqb (ev_user r) u) l); reflexivity.
Qed.







(** ** Every signal of a user is computed from that user's rows alone *)











(** ** The row view of a well-formed log *)

Lemma events_proj (us ts ns ds aa : Series) :
  List.length ts = List.length us -> List.length ns = List.length us ->
  List.length ds = List.length us -> List.length aa = List.length us ->
  map ev_user (events us ts ns ds aa) = us /\
  map ev_time (events us ts ns ds aa) = ts /\
  map ev_name (events us ts ns ds aa) = ns /\
  map ev_desc (events us ts ns ds aa) = ds /\
  map ev_ip (events us ts ns ds aa) = aa.
Proof.
  revert ts ns ds aa.
  induction us as [|u us IH]; intros [|t ts] [|n ns] [|d ds] [|a aa] H1 H2 H3 H4;
    simpl in *; try discriminate; [repeat split; reflexivity|].
  destruct (IH ts ns ds aa) as (E1 & E2 & E3 & E4 & E5); try lia.
  repeat split; f_equal; assumption.
Qed.

Lemma to_datetime_length (p : string -> option Z) (s : Series) :
  List.length (to_datetime p s) = List.length s.
Proof. unfold to_datetime. apply length_map. Qed.

Lemma is_true_Bool (b : bool) : is_true (Bool b) = b.
Proof. destruct b; reflexivity. Qed.


(** ** The columns of the engine, row by row *)

Lemma isin_users (P : Event -> cell) (Q : Event -> bool) (rs : list Event) :
  (forall r, is_true (P r) = Q r) ->
  isin (map ev_user rs) (unique (select (map P rs) (map ev_user rs))) =
  map (fun r => Bool (existsb (same_user (ev_user r)) (filter Q rs))) rs.
Proof.
  intros H. unfold isin. rewrite select_map, map_map.
  apply map_ext. intros r. f_equal.
  rewrite existsb_unique, existsb_map, (filter_ext _ _ H).
  apply existsb_ext'. intros x. unfold same_user. apply cell_eqb_sym.
Qed.

Lemma zero_resource_column (a : Z) (rs : list Event) :
  series_not
    (isin (map ev_user rs)
       (unique
          (select
             (series_and (series_eq (map ev_name rs) (Str "Course module viewed"))
                         (str_contains (map ev_desc rs) (str_of_Z a)))
             (map ev_user rs)))) =
  per_user (zero_resource_of a rs) rs.
Proof.
  unfold series_eq, str_contains. rewrite !map_map, series_and_map.
  rewrite (isin_users _ (opened_row a)).
  - unfold series_not, per_user. rewrite map_map. apply map_ext. intros r.
    unfold cell_not, zero_resource_of. rewrite is_true_Bool. reflexivity.
  - intros r. unfold opened_row, cell_and. rewrite !is_true_Bool.
    destruct (ev_desc r); try rewrite is_true_Bool; reflexivity.
Qed.

Lemma lastmin_first_column (d : Z) (rs : list Event) :
  map (fun x => Bool (hours_le
                        (ts_sub (Ts d)
                                (series_get
                                   (groupby_agg agg_min (map ev_user rs) (map ev_time rs))
                                   x (Ts d)))
                        24)) (map ev_user rs) =
  per_user (lastmin_first_of d rs) rs.
Proof.
  unfold per_user. rewrite map_map. apply map_ext. intros r.
  rewrite series_get_groupby_agg. reflexivity.
Qed.

Lemma size_column (l rs : list Event) :
  fillna0 (series_map (map ev_user rs) (groupby_size (map ev_user l))) =
  map (fun r => Num (Z.of_nat (List.length (group_of (ev_user r) l)))) rs.
Proof.
  unfold fillna0, series_map, groupby_size. rewrite !map_map.
  apply map_ext. intros r. rewrite series_get_groupby_agg.
  destruct (group_of (ev_user r) l) eqn:E; [reflexivity|].
  unfold agg_size. rewrite length_map. reflexivity.
Qed.

Lemma grade_snoop_column (now : Z) (rs : list Event) :
  fillna0
    (series_map (map ev_user rs)
       (groupby_size
          (select
             (series_eq
                (select (series_ge_ts (map ev_time rs) (now - hours 48)) (map ev_name rs))
                (Str "Grade user report viewed"))
             (select (series_ge_ts (map ev_time rs) (now - hours 48)) (map ev_user rs))))) =
  per_user (grade_snoop_of now rs) rs.
Proof.
  unfold series_ge_ts, series_eq. rewrite !map_map, !select_map, map_map, select_map.
  rewrite size_column. unfold per_user, grade_snoop_of.
  apply map_ext. intros r. do 4 f_equal.
  rewrite (filter_ext _ grade_row) by (intros x; apply is_true_Bool).
  f_equal. apply filter_ext. intros x. unfold recent_row.
  destruct (ev_time x); try reflexivity. apply is_true_Bool.
Qed.

Lemma status_checks_column (rs : list Event) :
  fillna0
    (series_map (map ev_user rs)
       (groupby_size
          (select
             (series_eq (map ev_name rs)
                (Str "The status of the submission has been viewed."))
             (map ev_user rs)))) =
  per_user (status_checks_of rs) rs.
Proof.
  unfold series_eq. rewrite !map_map, select_map, size_column.
  unfold per_user, status_checks_of.
  apply map_ext. intros r. do 4 f_equal.
  apply filter_ext. intros x. apply is_true_Bool.
Qed.

Lemma minute5_column (rs : list Event) :
  dt_floor_5min (map ev_time rs) = map minute5_of rs.
Proof. unfold dt_floor_5min. rewrite map_map. reflexivity. Qed.

Lemma hop_binge_column (rs : list Event) :
  fillna0
    (series_map (map ev_user rs)
       (level0_max
          (groupby2_size
             (select (series_eq (map ev_name rs) (Str "Course viewed")) (map ev_user rs))
             (select (series_eq (map ev_name rs) (Str "Course viewed")) (map minute5_of rs))))) =
  per_user (hop_binge_of rs) rs.
Proof.
  unfold series_eq. rewrite !map_map, !select_map.
  unfold groupby2_size. rewrite !combine_map.
  rewrite (filter_ext _ viewed_row) by (intros x; apply is_true_Bool).
  unfold fillna0, series_map, per_user. rewrite !map_map. reflexivity.
Qed.

Lemma help_count_column (rs : list Event) :
  isin (map ev_user rs)
    (unique (select (isin (map ev_name rs) help_events) (map ev_user rs))) =
  per_user (help_count_of rs) rs.
Proof.
  unfold isin at 2. rewrite map_map.
  rewrite (isin_users _ help_row) by (intros r; apply is_true_Bool).
  reflexivity.
Qed.

Lemma ip_block_column (rs : list Event) :
  str_extract_ip_block (map ev_ip rs) = map ip_block_of rs.
Proof. unfold str_extract_ip_block. rewrite map_map. reflexivity. Qed.

Lemma geo_jumps_column (rs : list Event) :
  fillna0
    (series_map (map ev_user rs)
       (groupby_agg agg_nunique
          (select (series_ne (map ev_ip rs) (Str "")) (map ev_user rs))
          (select (series_ne (map ev_ip rs) (Str "")) (map ip_block_of rs)))) =
  per_user (geo_jumps_of rs) rs.
Proof.
  unfold series_ne. rewrite !map_map, !select_map.
  rewrite (filter_ext _ ip_row) by (intros x; apply is_true_Bool).
  unfold fillna0, series_map, per_user. rewrite !map_map.
  apply map_ext. intros r. rewrite series_get_groupby_agg.
  unfold geo_jumps_of. destruct (group_of (ev_user r) (filter ip_row rs)); reflexivity.
Qed.

Lemma risk_score_column (a d now : Z) (rs : list Event) :
  series_add (series_add (series_add (series_add (series_add (series_add
    (astype_int (per_user (zero_resource_of a rs) rs))
    (astype_int (per_user (lastmin_first_of d rs) rs)))
    (astype_int (series_ge (per_user (grade_snoop_of now rs) rs) 3)))
    (astype_int (series_and (map (fun _ => Bool true) rs)
                            (series_ge (per_user (status_checks_of rs) rs) 4))))
    (astype_int (series_ge (per_user (hop_binge_of rs) rs) 5)))
    (astype_int (series_not (per_user (help_count_of rs) rs))))
    (astype_int (series_ge (per_user (geo_jumps_of rs) rs) 2)) =
  per_user (risk_score_of a d now rs) rs.
Proof.
  unfold per_user, astype_int, series_ge, series_not.
  rewrite !map_map, series_and_map, !map_map, !series_add_map.
  reflexivity.
Qed.

(** The engine on a log whose five columns are the projections of [rs]. *)
Lemma risk_engine_rows (p : string -> option Z) (c a d now : Z)
    (df : DataFrame) (rs : list Event) (tr : Series) :
  nrows df = List.length rs ->
  get_col df "User full name" = Ok (map ev_user rs) ->
  get_col df "Time" = Ok tr ->
  to_datetime p tr = map ev_time rs ->
  get_col df "Event name" = Ok (map ev_name rs) ->
  get_col df "Description" = Ok (map ev_desc rs) ->
  get_col df "IP address" = Ok (map ev_ip rs) ->
  risk_engine p c a d now df = Ok (augmented a d now df rs).
Proof.
  intros Hn Hu Ht Htr He Hd Hi.
  unfold risk_engine, set_col_scalar.
  rewrite Ht. cbn [bind]. rewrite Htr.
  repeat (progress (rewrite ?get_col_set_col, ?get_col_df_select, ?Hu, ?He, ?Hd, ?Hi;
                    cbn [bind String.eqb Ascii.eqb Bool.eqb])).
  cbn [nrows set_col]. rewrite Hn, repeat_map.
  rewrite minute5_column, ip_block_column.
  rewrite zero_resource_column, lastmin_first_column, grade_snoop_column,
    status_checks_column, hop_binge_column, help_count_column, geo_jumps_column.
  rewrite risk_score_column.
  reflexivity.
Qed.

(** ** From a well-formed log to its events *)

Lemma has_required_lookup (df : DataFrame) :
  has_required df = true ->
  exists users tr names descs ips,
    lookup_col "User full name" (columns df) = Some users /\
    lookup_col "Time" (columns df) = Some tr /\
    lookup_col "Event name" (columns df) = Some names /\
    lookup_col "Description" (columns df) = Some descs /\
    lookup_col "IP address" (columns df) = Some ips.
Proof.
  unfold has_required, required_columns, has_column. cbn [forallb].
  rewrite !andb_true_iff.
  destruct (lookup_col "Time" (columns df)) as [tr|]; [|intuition discriminate].
  destruct (lookup_col "Event name" (columns df)) as [names|]; [|intuition discriminate].
  destruct (lookup_col "Description" (columns df)) as [descs|]; [|intuition discriminate].
  destruct (lookup_col "User full name" (columns df)) as [users|]; [|intuition discriminate].
  destruct (lookup_col "IP address" (columns df)) as [ips|]; [|intuition discriminate].
  intros _. exists users, tr, names, descs, ips. repeat split.
Qed.

Lemma row_view (p : string -> option Z) (df : DataFrame) :
  wf df -> has_required df = true ->
  nrows df = List.length (events_of p df) /\
  get_col df "User full name" = Ok (map ev_user (events_of p df)) /\
  (exists tr, get_col df "Time" = Ok tr /\
              to_datetime p tr = map ev_time (events_of p df)) /\
  get_col df "Event name" = Ok (map ev_name (events_of p df)) /\
  get_col df "Description" = Ok (map ev_desc (events_of p df)) /\
  get_col df "IP address" = Ok (map ev_ip (events_of p df)).
Proof.
  intros W R.
  destruct (has_required_lookup df R) as (users & tr & names & descs & ips & Hu & Ht & He & Hd & Hi).
  pose proof (wf_lookup _ _ _ W Hu) as Lu.
  pose proof (wf_lookup _ _ _ W Ht) as Lt.
  pose proof (wf_lookup _ _ _ W He) as Le.
  pose proof (wf_lookup _ _ _ W Hd) as Ld.
  pose proof (wf_lookup _ _ _ W Hi) as Li.
  unfold events_of, get_col. rewrite Hu, Ht, He, Hd, Hi.
  destruct (events_proj users (to_datetime p tr) names descs ips)
    as (E1 & E2 & E3 & E4 & E5);
    rewrite ?to_datetime_length; try congruence.
  rewrite E1, E3, E4, E5.
  split; [rewrite <- Lu, <- E1 at 1; apply length_map|].
  split; [reflexivity|].
  split; [exists tr; split; [reflexivity|symmetry; exact E2]|].
  repeat split.
Qed.

Lemma risk_engine_augmented (p : string -> option Z) (c a d now : Z) (df : DataFrame) :
  wf df -> has_required df = true ->
  risk_engine p c a d now df = Ok (augmented a d now df (events_of p df)).
Proof.
  intros W R.
  destruct (row_view p df W R) as (Hn & Hu & (tr & Ht & Htr) & He & Hd & Hi).
  eapply risk_engine_rows; eassumption.
Qed.

Lemma compute_risk_fst (p : string -> option Z) (df : DataFrame) (w : World) :
  fst (compute_risk p df w) =
  risk_engine p 83 2889 (Timestamp 2025 12 17 23 59 59) (current_time w) df.
Proof. reflexivity. Qed.

(** ** Reading the augmented table *)

Lemma nth_map_NA {A : Type} (f : A -> cell) (d : A) (l : list A) (i : nat) :
  (i < List.length l)%nat -> nth i (map f l) NA = f (nth i l d).
Proof.
  intros H. rewrite (nth_indep _ NA (f d)) by (rewrite length_map; exact H).
  apply map_nth.
Qed.

Ltac nth_row H :=
  unfold per_user;
  match goal with
  | |- nth _ (map ?f _) _ = _ => exact (nth_map_NA f no_event _ _ H)
  end.

Ltac read_augmented :=
  unfold cell_at, augmented, set_col; cbn [columns nrows];
  rewrite ?lookup_put_col; cbn [String.eqb Ascii.eqb Bool.eqb].

Lemma nrows_augmented (a d now : Z) (df : DataFrame) (rs : list Event) :
  nrows (augmented a d now df rs) = nrows df.
Proof. reflexivity. Qed.

Section ReadAugmented.
Variables (a d now : Z) (df : DataFrame) (rs : list Event) (i : nat).
Hypothesis Hi : (i < List.length rs)%nat.

Lemma at_zero_resource :
    cell_at (augmented a d now df rs) "zero_resource" i = zero_resource_of a rs (ev_user (nth i rs no_event)).
  Proof. read_augmented. nth_row Hi. Qed.

Lemma at_lastmin_first :
    cell_at (augmented a d now df rs) "lastmin_first" i = lastmin_first_of d rs (ev_user (nth i rs no_event)).
  Proof. read_augmented. nth_row Hi. Qed.

Lemma at_grade_snoop :
    cell_at (augmented a d now df rs) "grade_snoop" i = grade_snoop_of now rs (ev_user (nth i rs no_event)).
  Proof. read_augmented. nth_row Hi. Qed.

Lemma at_status_checks :
    cell_at (augmented a d now df rs) "status_checks" i = status_checks_of rs (ev_user (nth i rs no_event)).
  Proof. read_augmented. nth_row Hi. Qed.

Lemma at_no_draft : cell_at (augmented a d now df rs) "no_draft" i = Bool true.
  Proof. read_augmented. nth_row Hi. Qed.

Lemma at_hop_binge :
    cell_at (augmented a d now df rs) "hop_binge" i = hop_binge_of rs (ev_user (nth i rs no_event)).
  Proof. read_augmented. nth_row Hi. Qed.

Lemma at_help_count :
    cell_at (augmented a d now df rs) "help_count" i = help_count_of rs (ev_user (nth i rs no_event)).
  Proof. read_augmented. nth_row Hi. Qed.

Lemma at_geo_jumps :
    cell_at (augmented a d now df rs) "geo_jumps" i = geo_jumps_of rs (ev_user (nth i rs no_event)).
  Proof. read_augmented. nth_row Hi. Qed.

Lemma at_risk_score :
    cell_at (augmented a d now df rs) "risk_score" i = risk_score_of a d now rs (ev_user (nth i rs no_event)).
  Proof. read_augmented. nth_row Hi. Qed.

Lemma at_Time : cell_at (augmented a d now df rs) "Time" i = ev_time (nth i rs no_event).
  Proof. read_augmented. nth_row Hi. Qed.
End ReadAugmented.

Lemma at_input_column (a d now : Z) (df : DataFrame) (rs : list Event)
    (n : string) (i : nat) :
  n <> "Time" -> ~ In n derived_columns ->
  cell_at (augmented a d now df rs) n i = cell_at df n i.
Proof.
  intros H1 H2.
  unfold cell_at, augmented, set_col; cbn [columns nrows].
  rewrite !lookup_put_col.
  repeat match goal with
  | |- context [String.eqb ?x n] =>
      let E := fresh in
      destruct (String.eqb x n) eqn:E;
      [apply String.eqb_eq in E; subst n;
       first [congruence | exfalso; apply H2; unfold derived_columns; simpl; tauto]|]
  end.
  reflexivity.
Qed.

(** ** Shape of the result *)

Lemma wf_augmented (a d now : Z) (df : DataFrame) (rs : list Event) :
  wf df -> nrows df = List.length rs -> wf (augmented a d now df rs).
Proof.
  intros W L. unfold augmented, per_user.
  repeat (apply wf_set_col; [|cbn [nrows set_col]; rewrite length_map; symmetry; exact L]).
  exact W.
Qed.

Lemma lookup_col_None (n : string) (cols : list (string * Series)) :
  lookup_col n cols = None <-> existsb (String.eqb n) (map fst cols) = false.
Proof.
  induction cols as [|[k c] cols IH]; simpl; [tauto|].
  rewrite (String.eqb_sym n k).
  destruct (String.eqb k n); simpl; [split; discriminate|exact IH].
Qed.

Lemma existsb_eqb_In (n : string) (l : list string) :
  existsb (String.eqb n) l = true <-> In n l.
Proof.
  rewrite existsb_exists. split.
  - intros (x & H & E). apply String.eqb_eq in E. subst. exact H.
  - intros H. exists n. split; [exact H|apply String.eqb_refl].
Qed.

Lemma In_names_put_col (n m : string) (s : Series) (cols : list (string * Series)) :
  In n (map fst (put_col m s cols)) <-> In n (map fst cols) \/ n = m.
Proof.
  rewrite column_names_put_col.
  destruct (existsb (String.eqb m) (map fst cols)) eqn:E.
  - apply existsb_eqb_In in E. split; [tauto|]. intros [H| ->]; assumption.
  - rewrite in_app_iff. simpl. split; [intros [H|[H|[]]]|intros [H|H]]; auto.
Qed.

Lemma In_names_augmented (a d now : Z) (df : DataFrame) (rs : list Event) (n : string) :
  In n (column_names (augmented a d now df rs)) <->
  In n (column_names df) \/ n = "Time" \/ In n derived_columns.
Proof.
  unfold augmented, column_names, set_col, derived_columns. cbn [columns].
  rewrite !In_names_put_col. simpl. intuition auto.
Qed.

Lemma names_fold_set (l : list (string * Series)) (df : DataFrame) :
  NoDup (map fst l) ->
  (forall n, In n (map fst l) -> ~ In n (column_names df)) ->
  column_names (fold_left (fun d ns => set_col d (fst ns) (snd ns)) l df) =
  column_names df ++ map fst l.
Proof.
  revert df. induction l as [|[n s] l IH]; intros df ND H; simpl.
  - symmetry. apply app_nil_r.
  - inversion ND as [|? ? Hn ND']; subst.
    assert (E : column_names (set_col df n s) = column_names df ++ [n]).
    { unfold column_names, set_col. cbn [columns]. rewrite column_names_put_col.
      destruct (existsb (String.eqb n) (map fst (columns df))) eqn:X; [|reflexivity].
      apply existsb_eqb_In in X. exfalso. apply (H n); [left; reflexivity|exact X]. }
    rewrite IH, E, <- app_assoc; [reflexivity|exact ND'|].
    intros m Hm. rewrite E, in_app_iff. simpl. intros [X|[X|[]]].
    + apply (H m); [right; exact Hm|exact X].
    + subst m. apply Hn. exact Hm.
Qed.

Lemma names_augmented (a d now : Z) (df : DataFrame) (rs : list Event) :
  has_column df "Time" = true ->
  (forall n, In n derived_columns -> has_column df n = false) ->
  column_names (augmented a d now df rs) = column_names df ++ derived_columns.
Proof.
  intros HT HD.
  assert (ET : column_names (set_col df "Time" (map ev_time rs)) = column_names df).
  { unfold column_names, set_col. cbn [columns]. rewrite column_names_put_col.
    destruct (existsb (String.eqb "Time") (map fst (columns df))) eqn:X; [reflexivity|].
    apply lookup_col_None in X. unfold has_column in HT. rewrite X in HT. discriminate. }
  rewrite <- ET.
  change (augmented a d now df rs) with
    (fold_left (fun d ns => set_col d (fst ns) (snd ns))
       [("zero_resource", per_user (zero_resource_of a rs) rs);
        ("lastmin_first", per_user (lastmin_first_of d rs) rs);
        ("grade_snoop", per_user (grade_snoop_of now rs) rs);
        ("status_checks", per_user (status_checks_of rs) rs);
        ("no_draft", map (fun _ => Bool true) rs);
        ("minute5", map minute5_of rs);
        ("hop_binge", per_user (hop_binge_of rs) rs);
        ("help_count", per_user (help_count_of rs) rs);
        ("ip_block", map ip_block_of rs);
        ("geo_jumps", per_user (geo_jumps_of rs) rs);
        ("risk_score", per_user (risk_score_of a d now rs) rs)]
       (set_col df "Time" (map ev_time rs))).
  apply names_fold_set.
  - cbn [map fst].
    repeat (constructor; [simpl; intuition discriminate|]). constructor.
  - intros n Hn. rewrite ET. intros X.
    specialize (HD n Hn). unfold has_column in HD.
    destruct (lookup_col n (columns df)) eqn:L; [discriminate|].
    apply lookup_col_None in L. apply existsb_eqb_In in X.
    unfold column_names in X. congruence.
Qed.

Lemma has_required_Time (df : DataFrame) :
  has_required df = true -> has_column df "Time" = true.
Proof.
  unfold has_required, required_columns. cbn [forallb].
  rewrite !andb_true_iff. tauto.
Qed.

Lemma has_column_In (df : DataFrame) (n : string) :
  has_column df n = true <-> In n (column_names df).
Proof.
  unfold has_column, column_names. rewrite <- existsb_eqb_In.
  destruct (lookup_col n (columns df)) eqn:E.
  - split; [|reflexivity]. intros _.
    destruct (existsb (String.eqb n) (map fst (columns df))) eqn:X; [reflexivity|].
    apply lookup_col_None in X. congruence.
  - apply lookup_col_None in E. rewrite E. tauto.
Qed.

(** ** The score *)

Lemma astype_int_cell_Bool (b : bool) :
  astype_int_cell (Bool b) = Num (Z.b2z (is_true (Bool b))).
Proof. destruct b; reflexivity. Qed.

Lemma cell_ge_Bool (c : cell) (k : Z) : exists b, cell_ge c k = Bool b.
Proof. destruct c; simpl; eauto. Qed.

Lemma geo_jumps_of_Num (rs : list Event) (u : cell) : exists z, geo_jumps_of rs u = Num z.
Proof.
  unfold geo_jumps_of. destruct (group_of u (filter ip_row rs)); unfold agg_nunique; eauto.
Qed.

Lemma b2z_range (b : bool) : (0 <= Z.b2z b <= 1)%Z.
Proof. destruct b; simpl; lia. Qed.

Lemma risk_score_of_sum (a d now : Z) (rs : list Event) (u : cell) :
  risk_score_of a d now rs u =
  Num (sum_Z
         [ Z.b2z (is_true (zero_resource_of a rs u));
           Z.b2z (is_true (lastmin_first_of d rs u));
           Z.b2z (is_true (cell_ge (grade_snoop_of now rs u) 3));
           Z.b2z (is_true (Bool true) && is_true (cell_ge (status_checks_of rs u) 4));
           Z.b2z (is_true (cell_ge (hop_binge_of rs u) 5));
           Z.b2z (negb (is_true (help_count_of rs u)));
           Z.b2z (is_true (cell_ge (geo_jumps_of rs u) 2)) ]).
Proof.
  unfold risk_score_of, zero_resource_of, lastmin_first_of, help_count_of,
    cell_and, cell_not.
  destruct (cell_ge_Bool (grade_snoop_of now rs u) 3) as [b3 ->].
  destruct (cell_ge_Bool (status_checks_of rs u) 4) as [b4 ->].
  destruct (cell_ge_Bool (hop_binge_of rs u) 5) as [b5 ->].
  destruct (cell_ge_Bool (geo_jumps_of rs u) 2) as [b7 ->].
  rewrite !astype_int_cell_Bool, !is_true_Bool.
  unfold sum_Z. cbn [cell_add fold_right]. f_equal. lia.
Qed.

Lemma sum_indicators_range (l : list bool) :
  (0 <= sum_Z (map Z.b2z l) <= Z.of_nat (List.length l))%Z.
Proof.
  induction l as [|b l IH]; [simpl; lia|].
  cbn [map sum_Z fold_right List.length]. fold (sum_Z (map Z.b2z l)).
  pose proof (b2z_range b). lia.
Qed.



Lemma wf_demo_log : wf demo_log.
Proof. repeat constructor. Qed.


Lemma lookup_input_column (a d now : Z) (df : DataFrame) (rs : list Event) (n : string) :
  n <> "Time" -> ~ In n derived_columns ->
  lookup_col n (columns (augmented a d now df rs)) = lookup_col n (columns df).
Proof.
  intros H1 H2.
  unfold augmented, set_col; cbn [columns nrows].
  rewrite !lookup_put_col.
  repeat match goal with
  | |- context [String.eqb ?x n] =>
      let E := fresh in
      destruct (String.eqb x n) eqn:E;
      [apply String.eqb_eq in E; subst n;
       first [congruence | exfalso; apply H2; unfold derived_columns; simpl; tauto]|]
  end.
  reflexivity.
Qed.

Lemma lookup_Time_augmented (a d now : Z) (df : DataFrame) (rs : list Event) :
  lookup_col "Time" (columns (augmented a d now df rs)) = Some (map ev_time rs).
Proof.
  unfold augmented, set_col; cbn [columns nrows].
  rewrite !lookup_put_col. reflexivity.
Qed.

(** ** Determinism and the unused course id *)

(** C5. With the same log (and the deadline of the source), two calls of
    [compute_risk] that read the same reference time off the wall clock
    return identical tables, whatever else differs between the two clocks. *)
Theorem same_reference_time_same_table (p : string -> option Z)
    (df : DataFrame) (w1 w2 : World) :
  current_time w1 = current_time w2 ->
  fst (compute_risk p df w1) = fst (compute_risk p df w2).
Proof.
  intros H. rewrite !compute_risk_fst, H. reflexivity.
Qed.

Lemma same_reference_time_same_table_witness :
  current_time demo_world = current_time demo_world_running /\
  fst (compute_risk parse_dmy_hms demo_log demo_world) =
  fst (compute_risk parse_dmy_hms demo_log demo_world_running).
Proof.
  split; [reflexivity|].
  apply same_reference_time_same_table. reflexivity.
Defined.

(** C10. The table does not depend on the course id: the body of
    [compute_risk] returns the same result for any two values of
    [course_id], and [compute_risk], which fixes it to 83, returns what the
    body returns with any other value. *)
Theorem course_id_is_not_read (p : string -> option Z)
    (c1 c2 a d now : Z) (df : DataFrame) (w : World) :
  risk_engine p c1 a d now df = risk_engine p c2 a d now df /\
  fst (compute_risk p df w) =
  risk_engine p c1 2889 (Timestamp 2025 12 17 23 59 59) (current_time w) df.
Proof. split; reflexivity. Qed.

(** ** Missing columns *)

Lemma get_col_Ok (df : DataFrame) (n : string) (s : Series) :
  lookup_col n (columns df) = Some s -> get_col df n = Ok s.
Proof. unfold get_col. intros ->. reflexivity. Qed.





(** ** The columns of the result *)

(** C6, as the code has it. On a log that has the required columns and
    none of the derived names, [compute_risk] returns the input columns in
    their order followed by eleven new columns: [zero_resource],
    [lastmin_first], [grade_snoop], [status_checks], [no_draft], [minute5],
    [hop_binge], [help_count], [ip_block], [geo_jumps] and [risk_score].
    [Time] holds the parsed timestamps; every other input column is
    unchanged. *)
Theorem result_has_eleven_new_columns (p : string -> option Z)
    (df : DataFrame) (w : World) :
  wf df -> has_required df = true ->
  (forall n, In n derived_columns -> has_column df n = false) ->
  exists out,
    fst (compute_risk p df w) = Ok out /\
    column_names out = column_names df ++ derived_columns /\
    List.length derived_columns = 11%nat /\
    (forall tr, lookup_col "Time" (columns df) = Some tr ->
                lookup_col "Time" (columns out) = Some (to_datetime p tr)) /\
    (forall n, n <> "Time" -> ~ In n derived_columns ->
               lookup_col n (columns out) = lookup_col n (columns df)).
Proof.
  intros W R D. rewrite compute_risk_fst, (risk_engine_augmented _ _ _ _ _ _ W R).
  eexists. split; [reflexivity|].
  split; [apply names_augmented; [apply has_required_Time; exact R|exact D]|].
  split; [reflexivity|].
  split.
  - intros tr Ht. rewrite lookup_Time_augmented.
    destruct (row_view p df W R) as (_ & _ & (tr' & Ht' & Htr) & _).
    apply get_col_Ok in Ht. rewrite Ht in Ht'. inversion Ht'. subst tr'.
    rewrite Htr. reflexivity.
  - intros n H1 H2. apply lookup_input_column; assumption.
Qed.

Lemma result_has_eleven_new_columns_witness :
  exists out,
    fst (compute_risk parse_dmy_hms demo_log demo_world) = Ok out /\
    column_names out = column_names demo_log ++ derived_columns /\
    List.length derived_columns = 11%nat /\
    (forall tr, lookup_col "Time" (columns demo_log) = Some tr ->
                lookup_col "Time" (columns out) = Some (to_datetime parse_dmy_hms tr)) /\
    (forall n, n <> "Time" -> ~ In n derived_columns ->
               lookup_col n (columns out) = lookup_col n (columns demo_log)).
Proof.
  apply result_has_eleven_new_columns; [exact wf_demo_log|reflexivity|].
  intros n Hn. unfold derived_columns in Hn. simpl in Hn.
  repeat (destruct Hn as [<-|Hn]; [reflexivity|]). destruct Hn.
Defined.

(** C6 as stated fails: on the sample log the result does not have eight
    columns more than the input (it has eleven more). *)
Lemma not_eight_new_columns :
  ~ (exists out,
        fst (compute_risk parse_dmy_hms demo_log demo_world) = Ok out /\
        List.length (column_names out) =
        (List.length (column_names demo_log) + 8)%nat).
Proof.
  intros (out & H & L). vm_compute in H. inversion H. subst out.
  vm_compute in L. discriminate L.
Qed.

(** C7. On a log without rows that has the required columns,
    [compute_risk] raises nothing and returns a table without rows whose
    columns are the input columns and the derived ones, all empty. *)
Theorem empty_log_gives_empty_table (p : string -> option Z)
    (df : DataFrame) (w : World) :
  wf df -> has_required df = true -> nrows df = 0%nat ->
  exists out,
    fst (compute_risk p df w) = Ok out /\
    nrows out = 0%nat /\
    (forall n, In n (column_names out) <->
               In n (column_names df) \/ In n derived_columns) /\
    (forall n s, lookup_col n (columns out) = Some s -> s = []).
Proof.
  intros W R Z0. rewrite compute_risk_fst, (risk_engine_augmented _ _ _ _ _ _ W R).
  destruct (row_view p df W R) as (Hn & _).
  eexists. split; [reflexivity|]. split; [exact Z0|]. split.
  - intros n. rewrite In_names_augmented. split; [|tauto].
    intros [H|[-> |H]]; auto. left. apply has_column_In, has_required_Time, R.
  - intros n s H.
    pose proof (wf_lookup _ _ _ (wf_augmented _ _ _ _ _ W Hn) H) as L.
    rewrite nrows_augmented, Z0 in L. destruct s; [reflexivity|discriminate].
Qed.

Lemma empty_log_gives_empty_table_witness :
  exists out,
    fst (compute_risk parse_dmy_hms empty_log demo_world) = Ok out /\
    nrows out = 0%nat /\
    (forall n, In n (column_names out) <->
               In n (column_names empty_log) \/ In n derived_columns) /\
    (forall n s, lookup_col n (columns out) = Some s -> s = []).
Proof.
  apply empty_log_gives_empty_table; [repeat constructor|reflexivity|reflexivity].
Defined.

(** ** The input columns of the result, row by row *)

Lemma cell_at_get_col {A : Type} (df : DataFrame) (n : string) (f : A -> cell)
    (d : A) (l : list A) (j : nat) :
  get_col df n = Ok (map f l) -> (j < List.length l)%nat ->
  cell_at df n j = f (nth j l d).
Proof.
  unfold get_col, cell_at. intros H Hj.
  destruct (lookup_col n (columns df)); [|discriminate].
  inversion H. subst. apply nth_map_NA. exact Hj.
Qed.

Section ReadInput.
Variables (a d now : Z) (df : DataFrame) (rs : list Event) (j : nat).
Hypothesis Hj : (j < List.length rs)%nat.

Lemma at_user :
    get_col df "User full name" = Ok (map ev_user rs) ->
    cell_at (augmented a d now df rs) "User full name" j = ev_user (nth j rs no_event).
  Proof.
    intros H. rewrite at_input_column.
    - apply cell_at_get_col; assumption.
    - discriminate.
    - unfold derived_columns. simpl. intuition discriminate.
  Qed.

End ReadInput.




(** ** Grade-book snooping *)





(** ** Last-minute first access *)






(** ** One user's rows *)















(** ** Adding a row *)












(** * Further properties of the engine *)




Section ReadMore.
Variables (a d now : Z) (df : DataFrame) (rs : list Event) (j : nat).
Hypothesis Hj : (j < List.length rs)%nat.


Lemma at_ip :
  get_col df "IP address" = Ok (map ev_ip rs) ->
  cell_at (augmented a d now df rs) "IP address" j = ev_ip (nth j rs no_event).
Proof.
  intros H. rewrite at_input_column.
  - apply cell_at_get_col; assumption.
  - discriminate.
  - unfold derived_columns. simpl. intuition discriminate.
Qed.

Lemma at_minute5 :
  cell_at (augmented a d now df rs) "minute5" j = minute5_of (nth j rs no_event).
Proof. read_augmented. nth_row Hj. Qed.

Lemma at_ip_block :
  cell_at (augmented a d now df rs) "ip_block" j = ip_block_of (nth j rs no_event).
Proof. read_augmented. nth_row Hj. Qed.
End ReadMore.

(** ** Zero-resource access *)



(** ** Status checks *)



(** ** Help silence *)



(** ** One value per user *)

Lemma per_user_column_at (a d now : Z) (df : DataFrame) (rs : list Event)
    (col : string) (i : nat) :
  (i < List.length rs)%nat -> In col per_user_columns ->
  exists F : cell -> cell,
    forall k, (k < List.length rs)%nat ->
      cell_at (augmented a d now df rs) col k = F (ev_user (nth k rs no_event)).
Proof.
  intros Hi Hc. unfold per_user_columns in Hc. simpl in Hc.
  destruct Hc as [<-|[<-|[<-|[<-|[<-|[<-|[<-|[<-|[<-|[]]]]]]]]]].
  - exists (zero_resource_of a rs). intros k Hk. apply at_zero_resource, Hk.
  - exists (lastmin_first_of d rs). intros k Hk. apply at_lastmin_first, Hk.
  - exists (grade_snoop_of now rs). intros k Hk. apply at_grade_snoop, Hk.
  - exists (status_checks_of rs). intros k Hk. apply at_status_checks, Hk.
  - exists (fun _ => Bool true). intros k Hk. apply at_no_draft, Hk.
  - exists (hop_binge_of rs). intros k Hk. apply at_hop_binge, Hk.
  - exists (help_count_of rs). intros k Hk. apply at_help_count, Hk.
  - exists (geo_jumps_of rs). intros k Hk. apply at_geo_jumps, Hk.
  - exists (risk_score_of a d now rs). intros k Hk. apply at_risk_score, Hk.
Qed.

(** X8. Two rows of the same user carry the same value in every signal
    column and the same score: the signals are computed per user and
    repeated on each of the user's rows. *)
Theorem rows_of_one_user_agree (p : string -> option Z)
    (df : DataFrame) (w : World) :
  wf df -> has_required df = true ->
  exists out,
    fst (compute_risk p df w) = Ok out /\
    forall i j col,
      (i < nrows out)%nat -> (j < nrows out)%nat ->
      cell_at out "User full name" i = cell_at out "User full name" j ->
      In col per_user_columns ->
      cell_at out col i = cell_at out col j.
Proof.
  intros W R. rewrite compute_risk_fst, (risk_engine_augmented _ _ _ _ _ _ W R).
  destruct (row_view p df W R) as (Hn & Hu & _).
  eexists. split; [reflexivity|].
  intros i j col Hi Hj E Hc. rewrite nrows_augmented, Hn in Hi, Hj.
  rewrite !at_user in E by assumption.
  destruct (per_user_column_at 2889 (Timestamp 2025 12 17 23 59 59)
              (current_time w) df (events_of p df) col i Hi Hc) as [F HF].
  rewrite (HF i Hi), (HF j Hj), E. reflexivity.
Qed.

Lemma rows_of_one_user_agree_witness :
  exists out,
    fst (compute_risk parse_dmy_hms demo_log demo_world) = Ok out /\
    forall i j col,
      (i < nrows out)%nat -> (j < nrows out)%nat ->
      cell_at out "User full name" i = cell_at out "User full name" j ->
      In col per_user_columns ->
      cell_at out col i = cell_at out col j.
Proof.
  apply rows_of_one_user_agree; [exact wf_demo_log|reflexivity].
Defined.

(** ** Rows without a user name *)




(** ** The frame that is returned *)

Lemma to_datetime_cell_kind (p : string -> option Z) (c : cell) :
  to_datetime_cell p c = NA \/ exists t, to_datetime_cell p c = Ts t.
Proof.
  destruct c; simpl; eauto. destruct (p s); eauto.
Qed.

Lemma ev_time_kind (p : string -> option Z) (df : DataFrame) (i : nat) :
  wf df -> has_required df = true ->
  ev_time (nth i (events_of p df) no_event) = NA \/
  exists t, ev_time (nth i (events_of p df) no_event) = Ts t.
Proof.
  intros W R.
  destruct (row_view p df W R) as (_ & _ & (tr & _ & Htr) & _).
  destruct (Nat.lt_ge_cases i (List.length (events_of p df))) as [Hi|Hi].
  - rewrite <- (nth_map_NA ev_time no_event _ _ Hi), <- Htr.
    unfold to_datetime.
    assert (Hi' : (i < List.length tr)%nat).
    { rewrite <- (to_datetime_length p tr), Htr, length_map. exact Hi. }
    rewrite (nth_map_NA (to_datetime_cell p) NA _ _ Hi').
    apply to_datetime_cell_kind.
  - rewrite nth_overflow by exact Hi. left. reflexivity.
Qed.

(** X7. The result is a frame with as many rows as the log, every column of
    that length; its [Time] column holds timestamps and NaT only, and
    [minute5] is NaT on NaT and otherwise the start [m] of the five-minute
    window of the timestamp [t]: a multiple of five minutes with
    [m <= t < m + 5 min]. *)
Theorem result_frame_and_time_columns (p : string -> option Z)
    (df : DataFrame) (w : World) :
  wf df -> has_required df = true ->
  exists out,
    fst (compute_risk p df w) = Ok out /\
    wf out /\ nrows out = nrows df /\
    forall i, (i < nrows out)%nat ->
      (cell_at out "Time" i = NA /\ cell_at out "minute5" i = NA) \/
      (exists t m,
          cell_at out "Time" i = Ts t /\ cell_at out "minute5" i = Ts m /\
          (m mod five_minutes = 0)%Z /\ (m <= t < m + five_minutes)%Z).
Proof.
  intros W R. rewrite compute_risk_fst, (risk_engine_augmented _ _ _ _ _ _ W R).
  destruct (row_view p df W R) as (Hn & _).
  eexists. split; [reflexivity|].
  split; [apply wf_augmented; assumption|]. split; [reflexivity|].
  intros i Hi. rewrite nrows_augmented, Hn in Hi.
  rewrite at_Time, at_minute5 by exact Hi. unfold minute5_of.
  destruct (ev_time_kind p df i W R) as [E|[t E]]; rewrite E.
  - left. split; reflexivity.
  - right. exists t, (t - t mod five_minutes)%Z.
    assert (F : (0 < five_minutes)%Z) by reflexivity.
    pose proof (Z.mod_pos_bound t five_minutes F) as B.
    repeat split; try lia.
    rewrite Zminus_mod, Zmod_mod, Z.sub_diag. reflexivity.
Qed.

Lemma result_frame_and_time_columns_witness :
  exists out,
    fst (compute_risk parse_dmy_hms demo_log demo_world) = Ok out /\
    wf out /\ nrows out = nrows demo_log /\
    forall i, (i < nrows out)%nat ->
      (cell_at out "Time" i = NA /\ cell_at out "minute5" i = NA) \/
      (exists t m,
          cell_at out "Time" i = Ts t /\ cell_at out "minute5" i = Ts m /\
          (m mod five_minutes = 0)%Z /\ (m <= t < m + five_minutes)%Z).
Proof.
  apply result_frame_and_time_columns; [exact wf_demo_log|reflexivity].
Defined.

(** ** Network blocks *)

Lemma span_digits_app (a r : string) :
  only_digits a = true ->
  match r with EmptyString => true | String c _ => negb (is_digit c) end = true ->
  span_digits (a ++ r) = (a, r).
Proof.
  intros Ha Hr. induction a as [|c a IH]; simpl.
  - destruct r as [|c r]; [reflexivity|]. simpl.
    apply negb_true_iff in Hr. rewrite Hr. reflexivity.
  - simpl in Ha. apply andb_true_iff in Ha. destruct Ha as [Hc Ha].
    rewrite Hc, (IH Ha). reflexivity.
Qed.

Lemma digits1_app (a r : string) :
  digit_run a = true ->
  match r with EmptyString => true | String c _ => negb (is_digit c) end = true ->
  digits1 (a ++ r) = Some (a, r).
Proof.
  unfold digit_run. intros Ha Hr. apply andb_true_iff in Ha. destruct Ha as [Hn Ha].
  unfold digits1. rewrite (span_digits_app a r Ha Hr).
  destruct a; [discriminate|reflexivity].
Qed.

Lemma string_app_nil (s : string) : (s ++ "")%string = s.
Proof. induction s as [|c s IH]; simpl; [reflexivity|]. rewrite IH. reflexivity. Qed.

Lemma match_ip_block_dotted_quad (a b c d : string) :
  digit_run a = true -> digit_run b = true ->
  digit_run c = true -> digit_run d = true ->
  match_ip_block (a ++ "." ++ b ++ "." ++ c ++ "." ++ d)
  = Some (a ++ "." ++ b ++ "." ++ c)%string.
Proof.
  intros Ha Hb Hc Hd. unfold match_ip_block.
  rewrite (digits1_app a _ Ha) by reflexivity. cbn [append dot].
  rewrite (digits1_app b _ Hb) by reflexivity. cbn [append dot].
  rewrite (digits1_app c _ Hc) by reflexivity. cbn [append dot].
  rewrite <- (string_app_nil d) at 1.
  rewrite (digits1_app d "" Hd) by reflexivity. reflexivity.
Qed.

Lemma search_ip_block_head (s g : string) :
  match_ip_block s = Some g -> search_ip_block s = Some g.
Proof.
  intros H. destruct s as [|c s]; [vm_compute in H; discriminate|].
  change (search_ip_block (String c s)) with
    (match match_ip_block (String c s) with
     | Some g => Some g
     | None => search_ip_block s
     end).
  rewrite H. reflexivity.
Qed.

(** X6. The [ip_block] of a row is the first three fields of its address
    when the address is a dotted quad of digit runs; it is null when the
    address is null or empty. *)
Theorem ip_block_of_address (p : string -> option Z) (df : DataFrame) (w : World) :
  wf df -> has_required df = true ->
  exists out,
    fst (compute_risk p df w) = Ok out /\
    forall i, (i < nrows out)%nat ->
      (forall a b c d,
          digit_run a = true -> digit_run b = true ->
          digit_run c = true -> digit_run d = true ->
          cell_at df "IP address" i = Str (a ++ "." ++ b ++ "." ++ c ++ "." ++ d) ->
          cell_at out "ip_block" i = Str (a ++ "." ++ b ++ "." ++ c)) /\
      (cell_at df "IP address" i = NA \/ cell_at df "IP address" i = Str "" ->
       cell_at out "ip_block" i = NA).
Proof.
  intros W R. rewrite compute_risk_fst, (risk_engine_augmented _ _ _ _ _ _ W R).
  destruct (row_view p df W R) as (Hn & _ & _ & _ & _ & Hip).
  eexists. split; [reflexivity|].
  intros i Hi. rewrite nrows_augmented, Hn in Hi.
  rewrite at_ip_block by exact Hi.
  rewrite (cell_at_get_col df "IP address" ev_ip no_event _ i Hip Hi).
  unfold ip_block_of. split.
  - intros a b c d Ha Hb Hc Hd E. rewrite E.
    rewrite (search_ip_block_head _ _ (match_ip_block_dotted_quad a b c d Ha Hb Hc Hd)).
    reflexivity.
  - intros [E|E]; rewrite E; reflexivity.
Qed.

Lemma ip_block_of_address_witness :
  exists out,
    fst (compute_risk parse_dmy_hms demo_log demo_world) = Ok out /\
    forall i, (i < nrows out)%nat ->
      (forall a b c d,
          digit_run a = true -> digit_run b = true ->
          digit_run c = true -> digit_run d = true ->
          cell_at demo_log "IP address" i
          = Str (a ++ "." ++ b ++ "." ++ c ++ "." ++ d) ->
          cell_at out "ip_block" i = Str (a ++ "." ++ b ++ "." ++ c)) /\
      (cell_at demo_log "IP address" i = NA \/
       cell_at demo_log "IP address" i = Str "" ->
       cell_at out "ip_block" i = NA).
Proof.
  apply ip_block_of_address; [exact wf_demo_log|reflexivity].
Defined.

(** ** Geo jumps *)

Lemma In_unique (x : cell) (l : list cell) : In x (unique l) <-> In x l.
Proof.
  induction l as [|c l IH]; simpl; [tauto|].
  rewrite filter_In, IH. split.
  - intros [H|[H _]]; auto.
  - intros [H|H]; [left; exact H|].
    destruct (cell_eqb x c) eqn:E.
    + apply cell_eqb_eq in E. left. symmetry. exact E.
    + right. split; [exact H|reflexivity].
Qed.

Lemma NoDup_unique (l : list cell) : NoDup (unique l).
Proof.
  induction l as [|c l IH]; simpl; constructor.
  - rewrite filter_In. intros [_ H]. rewrite cell_eqb_refl in H. discriminate.
  - apply NoDup_filter. exact IH.
Qed.








(** ** Running the engine on its own result *)

Lemma put_col_same (n : string) (s : Series) (cols : list (string * Series)) :
  lookup_col n cols = Some s -> put_col n s cols = cols.
Proof.
  induction cols as [|[k c] cols IH]; simpl; [discriminate|].
  destruct (String.eqb k n).
  - intros H. inversion H. reflexivity.
  - intros H. rewrite (IH H). reflexivity.
Qed.

Lemma set_col_same (df : DataFrame) (n : string) (s : Series) :
  lookup_col n (columns df) = Some s -> set_col df n s = df.
Proof.
  intros H. unfold set_col. rewrite (put_col_same _ _ _ H).
  destruct df. reflexivity.
Qed.

Lemma to_datetime_cell_idem (p : string -> option Z) (c : cell) :
  to_datetime_cell p (to_datetime_cell p c) = to_datetime_cell p c.
Proof. destruct c; simpl; try reflexivity. destruct (p s); reflexivity. Qed.

Lemma to_datetime_idem (p : string -> option Z) (s : Series) :
  to_datetime p (to_datetime p s) = to_datetime p s.
Proof.
  unfold to_datetime. rewrite map_map. apply map_ext.
  intros c. apply to_datetime_cell_idem.
Qed.

Ltac lookup_augmented :=
  unfold augmented, set_col; cbn [columns nrows];
  rewrite !lookup_put_col; reflexivity.

Lemma augmented_fixed (a d now : Z) (df : DataFrame) (rs : list Event) :
  augmented a d now (augmented a d now df rs) rs = augmented a d now df rs.
Proof.
  set (A := augmented a d now df rs).
  unfold augmented.
  rewrite (set_col_same A "Time") by (subst A; lookup_augmented).
  rewrite (set_col_same A "zero_resource") by (subst A; lookup_augmented).
  rewrite (set_col_same A "lastmin_first") by (subst A; lookup_augmented).
  rewrite (set_col_same A "grade_snoop") by (subst A; lookup_augmented).
  rewrite (set_col_same A "status_checks") by (subst A; lookup_augmented).
  rewrite (set_col_same A "no_draft") by (subst A; lookup_augmented).
  rewrite (set_col_same A "minute5") by (subst A; lookup_augmented).
  rewrite (set_col_same A "hop_binge") by (subst A; lookup_augmented).
  rewrite (set_col_same A "help_count") by (subst A; lookup_augmented).
  rewrite (set_col_same A "ip_block") by (subst A; lookup_augmented).
  rewrite (set_col_same A "geo_jumps") by (subst A; lookup_augmented).
  rewrite (set_col_same A "risk_score") by (subst A; lookup_augmented).
  reflexivity.
Qed.

Lemma get_col_input_augmented (a d now : Z) (df : DataFrame) (rs : list Event)
    (n : string) (s : Series) :
  n <> "Time" -> ~ In n derived_columns ->
  get_col df n = Ok s -> get_col (augmented a d now df rs) n = Ok s.
Proof.
  intros H1 H2 H. unfold get_col in *.
  rewrite lookup_input_column by assumption. exact H.
Qed.

(** X10. Feeding the result of [compute_risk] back into [compute_risk], with
    the clock showing the same time, returns the same table: the parsed
    timestamps parse to themselves and every derived column is
    overwritten in place by the same values. *)
Theorem compute_risk_twice (p : string -> option Z) (df : DataFrame) (w : World) :
  wf df -> has_required df = true ->
  exists out,
    fst (compute_risk p df w) = Ok out /\
    forall w', current_time w' = current_time w ->
               fst (compute_risk p out w') = Ok out.
Proof.
  intros W R. rewrite compute_risk_fst, (risk_engine_augmented _ _ _ _ _ _ W R).
  destruct (row_view p df W R) as (Hn & Hu & (tr & Ht & Htr) & He & Hd & Hi).
  eexists. split; [reflexivity|].
  intros w' T. rewrite compute_risk_fst, T.
  set (rs := events_of p df) in *.
  rewrite (risk_engine_rows p 83 2889 (Timestamp 2025 12 17 23 59 59)
             (current_time w) _ rs (map ev_time rs)).
  - rewrite augmented_fixed. reflexivity.
  - rewrite nrows_augmented. exact Hn.
  - apply get_col_input_augmented; [discriminate| |exact Hu].
    unfold derived_columns. simpl. intuition discriminate.
  - unfold get_col. rewrite lookup_Time_augmented. reflexivity.
  - rewrite <- Htr. apply to_datetime_idem.
  - apply get_col_input_augmented; [discriminate| |exact He].
    unfold derived_columns. simpl. intuition discriminate.
  - apply get_col_input_augmented; [discriminate| |exact Hd].
    unfold derived_columns. simpl. intuition discriminate.
  - apply get_col_input_augmented; [discriminate| |exact Hi].
    unfold derived_columns. simpl. intuition discriminate.
Qed.

Lemma compute_risk_twice_witness :
  exists out,
    fst (compute_risk parse_dmy_hms demo_log demo_world) = Ok out /\
    forall w', current_time w' = current_time demo_world ->
               fst (compute_risk parse_dmy_hms out w') = Ok out.
Proof.
  apply compute_risk_twice; [exact wf_demo_log|reflexivity].
Defined.

(** ** Section-hopping binge *)

Section GroupMembers.
Context {K V : Type}.
Variable keq : K -> K -> bool.
Variable kna : K -> bool.
Hypothesis keq_eq : forall a b, keq a b = true <-> a = b.






End GroupMembers.








(** * The table of students at risk *)

Lemma In_drop_duplicates (x : cell * cell) (l : list (cell * cell)) :
  In x (drop_duplicates l) <-> In x l.
Proof.
  induction l as [|c l IH]; simpl; [tauto|].
  rewrite filter_In, IH. split.
  - intros [H|[H _]]; auto.
  - intros [H|H]; [left; exact H|].
    destruct (pair_eqb x c) eqn:E.
    + apply pair_eqb_eq in E. left. symmetry. exact E.
    + right. split; [exact H|reflexivity].
Qed.

Lemma NoDup_drop_duplicates (l : list (cell * cell)) : NoDup (drop_duplicates l).
Proof.
  induction l as [|c l IH]; simpl; constructor.
  - rewrite filter_In. intros [_ H].
    rewrite (proj2 (pair_eqb_eq c c) eq_refl) in H. discriminate.
  - apply NoDup_filter. exact IH.
Qed.

Lemma NoDup_map_fst {A B : Type} (F : A -> B) (l : list (A * B)) :
  NoDup l -> (forall x, In x l -> snd x = F (fst x)) -> NoDup (map fst l).
Proof.
  induction l as [|[a b] l IH]; intros ND H; simpl; constructor.
  - intros X. apply in_map_iff in X. destruct X as ([a' b'] & E & X).
    simpl in E. subst a'.
    pose proof (H (a, b) (or_introl eq_refl)) as H1.
    pose proof (H (a, b') (or_intror X)) as H2. simpl in H1, H2.
    apply NoDup_cons_iff in ND. destruct ND as [N _].
    apply N. rewrite H1, <- H2. exact X.
  - apply NoDup_cons_iff in ND. destruct ND as [_ ND]. apply IH; [exact ND|].
    intros x Hx. apply H. right. exact Hx.
Qed.

Lemma StronglySorted_filter {A : Type} (R : A -> A -> Prop) (f : A -> bool)
    (l : list A) :
  StronglySorted R l -> StronglySorted R (filter f l).
Proof.
  induction 1 as [|x l S IH F]; simpl; [constructor|].
  destruct (f x); [|exact IH].
  constructor; [exact IH|].
  apply Forall_forall. intros y Hy. apply filter_In in Hy.
  rewrite Forall_forall in F. apply F. tauto.
Qed.

Lemma insert_falling_perm (x : cell * cell) (l : list (cell * cell)) :
  Permutation (x :: l) (insert_falling x l).
Proof.
  induction l as [|y l IH]; simpl; [apply Permutation_refl|].
  destruct (score_of y <=? score_of x)%Z; [apply Permutation_refl|].
  eapply Permutation_trans; [apply perm_swap|]. apply perm_skip. exact IH.
Qed.

Lemma sort_falling_perm (l : list (cell * cell)) : Permutation l (sort_falling l).
Proof.
  induction l as [|x l IH]; simpl; [constructor|].
  eapply Permutation_trans; [apply perm_skip; exact IH|apply insert_falling_perm].
Qed.

Lemma insert_falling_sorted (x : cell * cell) (l : list (cell * cell)) :
  StronglySorted falling l -> StronglySorted falling (insert_falling x l).
Proof.
  induction 1 as [|y l S IH F]; simpl; [repeat constructor|].
  destruct (score_of y <=? score_of x)%Z eqn:E.
  - apply Z.leb_le in E. constructor; [constructor; assumption|].
    constructor; [exact E|].
    rewrite Forall_forall in *. intros z Hz. specialize (F z Hz).
    unfold falling in *. lia.
  - apply Z.leb_gt in E. constructor; [exact IH|].
    rewrite Forall_forall in *. intros z Hz.
    apply (Permutation_in _ (Permutation_sym (insert_falling_perm x l))) in Hz.
    destruct Hz as [<-|Hz]; [unfold falling; lia|apply F; exact Hz].
Qed.

Lemma sort_falling_sorted (l : list (cell * cell)) :
  StronglySorted falling (sort_falling l).
Proof.
  induction l as [|x l IH]; simpl; [constructor|].
  apply insert_falling_sorted. exact IH.
Qed.

Lemma risk_score_of_range (a d now : Z) (rs : list Event) (u : cell) :
  exists z, risk_score_of a d now rs u = Num z /\ (0 <= z <= 7)%Z.
Proof.
  rewrite risk_score_of_sum. eexists. split; [reflexivity|].
  match goal with
  | |- (0 <= sum_Z [Z.b2z ?b1; Z.b2z ?b2; Z.b2z ?b3; Z.b2z ?b4; Z.b2z ?b5;
                    Z.b2z ?b6; Z.b2z ?b7] <= 7)%Z =>
      exact (sum_indicators_range [b1; b2; b3; b4; b5; b6; b7])
  end.
Qed.

Lemma score_ge_iff (cut : Z) (u s : cell) :
  score_ge cut (u, s) = true <-> exists z, s = Num z /\ (cut <= z)%Z.
Proof.
  unfold score_ge. cbn [snd]. destruct s; cbn [cell_ge]; rewrite is_true_Bool.
  2,4,5: split; [discriminate|intros (z' & E & _); discriminate].
  - split; [discriminate|intros (z' & E & _); discriminate].
  - rewrite Z.leb_le. split.
    + intros L. exists z. split; [reflexivity|exact L].
    + intros (z' & E & L). inversion E. subst. exact L.
Qed.

(** The rows [risky] is built from, and [risky] itself. *)
Lemma risky_table_augmented (sort : list (cell * cell) -> list (cell * cell))
    (a d now : Z) (df : DataFrame) (rs : list Event) (cut : Z) :
  get_col df "User full name" = Ok (map ev_user rs) ->
  risky_table sort (augmented a d now df rs) cut =
  Ok (filter (score_ge cut)
        (sort (drop_duplicates
                 (map (fun r => (ev_user r, risk_score_of a d now rs (ev_user r))) rs)))).
Proof.
  intros Hu. unfold risky_table, two_columns.
  assert (E0 : get_col (augmented a d now df rs) "User full name"
               = Ok (map ev_user rs)).
  { apply get_col_input_augmented; [discriminate| |exact Hu].
    unfold derived_columns. simpl. intuition discriminate. }
  rewrite E0. cbn [bind].
  assert (E : get_col (augmented a d now df rs) "risk_score"
              = Ok (per_user (risk_score_of a d now rs) rs)).
  { unfold get_col. replace (lookup_col "risk_score" (columns (augmented a d now df rs)))
      with (Some (per_user (risk_score_of a d now rs) rs)); [reflexivity|].
    symmetry. lookup_augmented. }
  rewrite E. cbn [bind]. unfold per_user. rewrite combine_map. reflexivity.
Qed.

Lemma In_risky_rows (a d now : Z) (df : DataFrame) (rs : list Event) (u s : cell) :
  nrows df = List.length rs ->
  get_col df "User full name" = Ok (map ev_user rs) ->
  In (u, s) (map (fun r => (ev_user r, risk_score_of a d now rs (ev_user r))) rs) <->
  exists i, (i < nrows (augmented a d now df rs))%nat /\
            cell_at (augmented a d now df rs) "User full name" i = u /\
            cell_at (augmented a d now df rs) "risk_score" i = s.
Proof.
  intros Hn Hu. rewrite nrows_augmented, Hn, in_map_iff. split.
  - intros (r & E & Hr). inversion E. subst.
    apply (In_nth _ _ no_event) in Hr. destruct Hr as (i & Hi & Er).
    exists i. split; [exact Hi|].
    rewrite at_user, at_risk_score by assumption. rewrite Er. split; reflexivity.
  - intros (i & Hi & E1 & E2).
    rewrite at_user in E1 by assumption. rewrite at_risk_score in E2 by assumption.
    exists (nth i rs no_event). split; [|apply nth_In; exact Hi].
    rewrite E1 in *. rewrite E2. reflexivity.
Qed.

(** X11. [risky] lists exactly the pairs of a user of the log and that user's
    score that reach the cut, and it lists no user twice: whatever the
    sort does with equal scores, a student appears once however many rows
    the log has for them. *)
Theorem risky_lists_each_student_at_risk_once (p : string -> option Z)
    (sort : list (cell * cell) -> list (cell * cell))
    (df : DataFrame) (w : World) (cut : Z) :
  (forall l, Permutation l (sort l)) ->
  wf df -> has_required df = true ->
  exists out risky,
    fst (compute_risk p df w) = Ok out /\
    risky_of p sort df w cut = Ok risky /\
    (forall u s,
        In (u, s) risky <->
        (exists i, (i < nrows out)%nat /\
                   cell_at out "User full name" i = u /\
                   cell_at out "risk_score" i = s) /\
        exists z, s = Num z /\ (cut <= z)%Z) /\
    NoDup (map fst risky).
Proof.
  intros SP W R. unfold risky_of.
  rewrite compute_risk_fst, (risk_engine_augmented _ _ _ _ _ _ W R).
  destruct (row_view p df W R) as (Hn & Hu & _).
  cbn [bind]. rewrite (risky_table_augmented _ _ _ _ _ _ _ Hu).
  do 2 eexists. split; [reflexivity|]. split; [reflexivity|].
  set (rs := events_of p df) in *.
  set (F := risk_score_of 2889 (Timestamp 2025 12 17 23 59 59) (current_time w) rs).
  set (rows := map (fun r => (ev_user r, F (ev_user r))) rs).
  assert (HI : forall x, In x (sort (drop_duplicates rows)) <-> In x rows).
  { intros x. split; intros H.
    - apply In_drop_duplicates.
      apply (Permutation_in _ (Permutation_sym (SP _))). exact H.
    - apply (Permutation_in _ (SP _)). apply In_drop_duplicates. exact H. }
  split.
  - intros u s. rewrite filter_In, HI.
    unfold rows, F. rewrite (In_risky_rows _ _ _ df rs u s Hn Hu).
    rewrite score_ge_iff. tauto.
  - apply (NoDup_map_fst F).
    + apply NoDup_filter.
      apply (Permutation_NoDup (SP _)), NoDup_drop_duplicates.
    + intros x Hx. apply filter_In in Hx. destruct Hx as [Hx _].
      apply HI in Hx. unfold rows in Hx. apply in_map_iff in Hx.
      destruct Hx as (r & <- & _). reflexivity.
Qed.

Lemma risky_lists_each_student_at_risk_once_witness :
  exists out risky,
    fst (compute_risk parse_dmy_hms demo_log demo_world) = Ok out /\
    risky_of parse_dmy_hms sort_falling demo_log demo_world 2 = Ok risky /\
    (forall u s,
        In (u, s) risky <->
        (exists i, (i < nrows out)%nat /\
                   cell_at out "User full name" i = u /\
                   cell_at out "risk_score" i = s) /\
        exists z, s = Num z /\ (2 <= z)%Z) /\
    NoDup (map fst risky).
Proof.
  apply risky_lists_each_student_at_risk_once;
    [exact sort_falling_perm|exact wf_demo_log|reflexivity].
Defined.

(** X12. [risky] is in the order of falling score (for a sort that sorts), and
    the cut is applied after the sort without disturbing that order. *)
Theorem risky_is_sorted_by_falling_score (p : string -> option Z)
    (sort : list (cell * cell) -> list (cell * cell))
    (df : DataFrame) (w : World) (cut : Z) :
  (forall l, StronglySorted falling (sort l)) ->
  wf df -> has_required df = true ->
  exists risky,
    risky_of p sort df w cut = Ok risky /\
    StronglySorted falling risky /\
    forall x, In x risky -> (cut <= score_of x)%Z.
Proof.
  intros SS W R. unfold risky_of.
  rewrite compute_risk_fst, (risk_engine_augmented _ _ _ _ _ _ W R).
  destruct (row_view p df W R) as (Hn & Hu & _).
  cbn [bind]. rewrite (risky_table_augmented _ _ _ _ _ _ _ Hu).
  eexists. split; [reflexivity|]. split.
  - apply StronglySorted_filter, SS.
  - intros [u s] Hx. apply filter_In in Hx. destruct Hx as [_ G].
    apply score_ge_iff in G. destruct G as (z & -> & G). exact G.
Qed.

Lemma risky_is_sorted_by_falling_score_witness :
  exists risky,
    risky_of parse_dmy_hms sort_falling demo_log demo_world 2 = Ok risky /\
    StronglySorted falling risky /\
    forall x, In x risky -> (2 <= score_of x)%Z.
Proof.
  apply risky_is_sorted_by_falling_score;
    [exact sort_falling_sorted|exact wf_demo_log|reflexivity].
Defined.

(** X13. At the ends of the slider: with a cut of 0 (or less) every user of the
    log is listed, with a cut above 7 nobody is; and [risky] is empty (the
    page then reports that no student is above the threshold and stops)
    exactly when no row of the log has a score that reaches the cut. *)
Theorem risky_at_the_ends_of_the_slider (p : string -> option Z)
    (sort : list (cell * cell) -> list (cell * cell))
    (df : DataFrame) (w : World) (cut : Z) :
  (forall l, Permutation l (sort l)) ->
  wf df -> has_required df = true ->
  exists out risky,
    fst (compute_risk p df w) = Ok out /\
    risky_of p sort df w cut = Ok risky /\
    ((cut <= 0)%Z ->
     forall i, (i < nrows out)%nat ->
               In (cell_at out "User full name" i) (map fst risky)) /\
    ((7 < cut)%Z -> risky = []) /\
    (risky = [] <->
     forall i, (i < nrows out)%nat ->
               is_true (cell_ge (cell_at out "risk_score" i) cut) = false).
Proof.
  intros SP W R. unfold risky_of.
  rewrite compute_risk_fst, (risk_engine_augmented _ _ _ _ _ _ W R).
  destruct (row_view p df W R) as (Hn & Hu & _).
  cbn [bind]. rewrite (risky_table_augmented _ _ _ _ _ _ _ Hu).
  do 2 eexists. split; [reflexivity|]. split; [reflexivity|].
  set (rs := events_of p df) in *.
  set (F := risk_score_of 2889 (Timestamp 2025 12 17 23 59 59) (current_time w) rs).
  set (rows := map (fun r => (ev_user r, F (ev_user r))) rs).
  assert (HI : forall x, In x (sort (drop_duplicates rows)) <-> In x rows).
  { intros x. split; intros H.
    - apply In_drop_duplicates.
      apply (Permutation_in _ (Permutation_sym (SP _))). exact H.
    - apply (Permutation_in _ (SP _)). apply In_drop_duplicates. exact H. }
  assert (HR : forall i, (i < List.length rs)%nat ->
                 In (ev_user (nth i rs no_event), F (ev_user (nth i rs no_event))) rows).
  { intros i Hi. unfold rows.
    apply (in_map (fun r => (ev_user r, F (ev_user r)))), nth_In, Hi. }
  assert (HE : filter (score_ge cut) (sort (drop_duplicates rows)) = [] <->
               forall i, (i < List.length rs)%nat ->
                 is_true (cell_ge (F (ev_user (nth i rs no_event))) cut) = false).
  { split.
    - intros E i Hi.
      destruct (is_true (cell_ge (F (ev_user (nth i rs no_event))) cut)) eqn:G;
        [|reflexivity].
      exfalso.
      assert (X : In (ev_user (nth i rs no_event), F (ev_user (nth i rs no_event)))
                     (filter (score_ge cut) (sort (drop_duplicates rows)))).
      { apply filter_In. split; [apply HI, HR, Hi|exact G]. }
      rewrite E in X. destruct X.
    - intros H.
      destruct (filter (score_ge cut) (sort (drop_duplicates rows))) as [|x l] eqn:E;
        [reflexivity|].
      exfalso. assert (X : In x (x :: l)) by (left; reflexivity).
      rewrite <- E in X. apply filter_In in X. destruct X as [X G].
      apply HI in X. unfold rows in X. apply in_map_iff in X.
      destruct X as (r & <- & Hr).
      apply (In_nth _ _ no_event) in Hr. destruct Hr as (i & Hi & Er).
      specialize (H i Hi). rewrite Er in H. unfold score_ge in G. cbn [snd] in G.
      congruence. }
  split; [|split].
  - intros C i Hi. rewrite nrows_augmented, Hn in Hi.
    rewrite at_user by assumption.
    apply in_map_iff.
    exists (ev_user (nth i rs no_event), F (ev_user (nth i rs no_event))).
    split; [reflexivity|]. apply filter_In. split; [apply HI, HR, Hi|].
    apply score_ge_iff. unfold F.
    destruct (risk_score_of_range 2889 (Timestamp 2025 12 17 23 59 59)
                (current_time w) rs (ev_user (nth i rs no_event))) as (z & -> & B).
    exists z. split; [reflexivity|lia].
  - intros C. apply HE. intros i Hi. unfold F.
    destruct (risk_score_of_range 2889 (Timestamp 2025 12 17 23 59 59)
                (current_time w) rs (ev_user (nth i rs no_event))) as (z & -> & B).
    cbn [cell_ge]. rewrite is_true_Bool. apply Z.leb_gt. lia.
  - rewrite HE, nrows_augmented, Hn. split; intros H i Hi; specialize (H i Hi).
    + rewrite at_risk_score by exact Hi. exact H.
    + rewrite at_risk_score in H by exact Hi. exact H.
Qed.

Lemma risky_at_the_ends_of_the_slider_witness :
  exists out risky,
    fst (compute_risk parse_dmy_hms demo_log demo_world) = Ok out /\
    risky_of parse_dmy_hms sort_falling demo_log demo_world 0 = Ok risky /\
    ((0 <= 0)%Z ->
     forall i, (i < nrows out)%nat ->
               In (cell_at out "User full name" i) (map fst risky)) /\
    ((7 < 0)%Z -> risky = []) /\
    (risky = [] <->
     forall i, (i < nrows out)%nat ->
               is_true (cell_ge (cell_at out "risk_score" i) 0) = false).
Proof.
  apply risky_at_the_ends_of_the_slider;
    [exact sort_falling_perm|exact wf_demo_log|reflexivity].
Defined.

(** * The unique-value counter *)

Lemma unique_length (l : list cell) : (List.length (unique l) <= List.length l)%nat.
Proof.
  induction l as [|c l IH]; simpl; [lia|].
  pose proof (filter_length_le (fun d => negb (cell_eqb d c)) (unique l)). lia.
Qed.

Lemma dropna_unique_length (s : Series) :
  (List.length (dropna_unique s) <= List.length s)%nat.
Proof.
  unfold dropna_unique.
  pose proof (unique_length (filter (fun c => negb (isna c)) s)).
  pose proof (filter_length_le (fun c => negb (isna c)) s). lia.
Qed.

Lemma In_dropna_unique (c : cell) (s : Series) :
  In c (dropna_unique s) <-> In c s /\ c <> NA.
Proof.
  unfold dropna_unique. rewrite In_unique, filter_In.
  destruct c; simpl; intuition congruence.
Qed.

Lemma dropna_unique_nil (s : Series) :
  List.length (dropna_unique s) = 0%nat <-> forall c, In c s -> c = NA.
Proof.
  split.
  - intros H c Hc. destruct c; try reflexivity;
      (assert (X : In _ (dropna_unique s))
        by (apply In_dropna_unique; split; [exact Hc|discriminate]);
       destruct (dropna_unique s); [destruct X|discriminate H]).
  - intros H. destruct (dropna_unique s) as [|c l] eqn:E; [reflexivity|].
    assert (X : In c (dropna_unique s)) by (rewrite E; left; reflexivity).
    apply In_dropna_unique in X. destruct X as [X N]. elim N. apply H, X.
Qed.

Lemma lookup_col_In (n : string) (s : Series) (cols : list (string * Series)) :
  lookup_col n cols = Some s -> In (n, s) cols.
Proof.
  induction cols as [|[k c] cols IH]; simpl; [discriminate|].
  destruct (String.eqb k n) eqn:E.
  - intros H. inversion H. subst. apply String.eqb_eq in E. subst. left. reflexivity.
  - intros H. right. apply IH, H.
Qed.

Lemma In_lookup_col (n : string) (cols : list (string * Series)) :
  In n (map fst cols) -> exists s, lookup_col n cols = Some s.
Proof.
  intros H. destruct (lookup_col n cols) eqn:E; [eauto|].
  apply lookup_col_None in E. apply existsb_eqb_In in H. congruence.
Qed.

(** X14. The counts shown: one line for every column except [Time], under its
    stripped name and in the order of the table. Each count is the number
    of distinct non-null cells of that column: at most the number of
    rows, and 0 exactly when the column holds nulls only. *)
Theorem unique_counts_cover_all_columns_but_Time (strip : string -> string)
    (df : DataFrame) :
  wf df ->
  map fst (fst (unique_value_counter strip df)) =
  filter (fun n => negb (String.eqb n "Time")) (map strip (column_names df)) /\
  forall n k,
    In (n, k) (fst (unique_value_counter strip df)) ->
    exists n' s,
      In (n', s) (columns df) /\ strip n' = n /\ n <> "Time" /\
      k = List.length (dropna_unique s) /\ (k <= nrows df)%nat /\
      (k = 0%nat <-> forall c, In c s -> c = NA).
Proof.
  intros W. unfold unique_value_counter, nunique, drop_column, strip_columns,
    column_names. cbn [fst columns nrows]. split.
  - rewrite !map_map. cbn [fst].
    induction (columns df) as [|[n s] cols IH]; simpl; [reflexivity|].
    destruct (String.eqb (strip n) "Time"); simpl; rewrite IH; reflexivity.
  - intros n k H. apply in_map_iff in H. destruct H as ([n0 s] & E & H).
    simpl in E. inversion E. subst n0 k. clear E.
    apply filter_In in H. destruct H as [H T]. simpl in T.
    apply in_map_iff in H. destruct H as ([n' s'] & E & H).
    simpl in E. inversion E. subst. clear E.
    exists n', s. split; [exact H|]. split; [reflexivity|]. split.
    + intros X. rewrite X in T. discriminate.
    + split; [reflexivity|]. split; [|apply dropna_unique_nil].
      unfold wf in W. rewrite Forall_forall in W. specialize (W _ H). simpl in W.
      rewrite <- W. apply dropna_unique_length.
Qed.

Lemma unique_counts_cover_all_columns_but_Time_witness :
  map fst (fst (unique_value_counter strip_blanks padded_log)) =
  filter (fun n => negb (String.eqb n "Time"))
         (map strip_blanks (column_names padded_log)) /\
  forall n k,
    In (n, k) (fst (unique_value_counter strip_blanks padded_log)) ->
    exists n' s,
      In (n', s) (columns padded_log) /\ strip_blanks n' = n /\ n <> "Time" /\
      k = List.length (dropna_unique s) /\ (k <= nrows padded_log)%nat /\
      (k = 0%nat <-> forall c, In c s -> c = NA).
Proof.
  apply unique_counts_cover_all_columns_but_Time. repeat constructor.
Defined.

(** X15. With distinct column names: every table of unique values that is
    shown belongs to a column of the table other than [Time]; it holds each non-null value of that column
    once and nothing else, and its length is the count shown for the
    column. *)
Theorem shown_uniques_are_the_distinct_values (strip : string -> string)
    (df : DataFrame) (col : string) (vals : list cell) :
  NoDup (column_names (strip_columns strip df)) ->
  In (col, vals) (snd (unique_value_counter strip df)) ->
  col <> "Time" /\
  exists s,
    lookup_col col (columns (drop_column "Time" (strip_columns strip df))) = Some s /\
    NoDup vals /\
    (forall c, In c vals <-> In c s /\ c <> NA) /\
    In (col, List.length vals) (fst (unique_value_counter strip df)).
Proof.
  intros _. unfold unique_value_counter. cbn [fst snd].
  set (t := drop_column "Time" (strip_columns strip df)).
  unfold shown_uniques. rewrite in_flat_map.
  intros (c & _ & H).
  destruct (lookup_col c (columns t)) as [s|] eqn:L; [|destruct H].
  destruct H as [H|[]]. inversion H. subst c vals. clear H.
  pose proof (lookup_col_In _ _ _ L) as I.
  split.
  - unfold t, drop_column in I. cbn [columns] in I. apply filter_In in I.
    destruct I as [_ T]. simpl in T. intros X. rewrite X in T. discriminate.
  - exists s. split; [exact L|]. split; [apply NoDup_unique|].
    split; [intros c; apply In_dropna_unique|].
    unfold nunique. apply in_map_iff. exists (col, s). split; [reflexivity|exact I].
Qed.

Lemma shown_uniques_are_the_distinct_values_witness :
  NoDup (column_names (strip_columns strip_blanks padded_log)) /\
  In ("Event name", [Str "Course viewed"])
     (snd (unique_value_counter strip_blanks padded_log)) /\
  "Event name" <> "Time" /\
  exists s,
    lookup_col "Event name"
      (columns (drop_column "Time" (strip_columns strip_blanks padded_log))) = Some s /\
    NoDup [Str "Course viewed"] /\
    (forall c, In c [Str "Course viewed"] <-> In c s /\ c <> NA) /\
    In ("Event name", List.length [Str "Course viewed"])
       (fst (unique_value_counter strip_blanks padded_log)).
Proof.
  assert (H : In ("Event name", [Str "Course viewed"])
                 (snd (unique_value_counter strip_blanks padded_log)))
    by (vm_compute; tauto).
  assert (N : NoDup (column_names (strip_columns strip_blanks padded_log))).
  { vm_compute. repeat (constructor; [simpl; intuition discriminate|]). constructor. }
  split; [exact N|]. split; [exact H|].
  apply (shown_uniques_are_the_distinct_values strip_blanks padded_log); assumption.
Defined.

Lemma shown_names (t : DataFrame) (cols : list string) :
  map fst (flat_map (fun col => match lookup_col col (columns t) with
                                | Some s => [(col, dropna_unique s)]
                                | None => []
                                end) cols)
  = filter (has_column t) cols.
Proof.
  induction cols as [|c cols IH]; simpl; [reflexivity|].
  rewrite map_app, IH. unfold has_column.
  destruct (lookup_col c (columns t)); reflexivity.
Qed.

Lemma filter_all_true {A : Type} (f : A -> bool) (l : list A) :
  (forall x, In x l -> f x = true) -> filter f l = l.
Proof.
  induction l as [|x l IH]; intros H; simpl; [reflexivity|].
  rewrite (H x (or_introl eq_refl)), IH; [reflexivity|].
  intros y Hy. apply H. right. exact Hy.
Qed.

(** X16. Which tables are shown (column names distinct). If some column
    name mentions "event" (in any letter case), the columns shown are
    exactly those, in table order. If none does, the fallback list is
    used, and of its three names only [Description] can be a column then:
    the table of [Description] is shown when that column exists, and
    nothing otherwise. *)
Theorem shown_columns (strip : string -> string) (df : DataFrame) :
  NoDup (column_names (strip_columns strip df)) ->
  let t := drop_column "Time" (strip_columns strip df) in
  let mentions := fun n => contains "event" (lower n) in
  let shown := map fst (snd (unique_value_counter strip df)) in
  (existsb mentions (column_names t) = true ->
   shown = filter mentions (column_names t)) /\
  (existsb mentions (column_names t) = false ->
   shown = if has_column t "Description" then ["Description"] else []).
Proof.
  intros _ t mentions shown. unfold shown, unique_value_counter. cbn [snd]. fold t.
  unfold shown_uniques. rewrite shown_names. unfold event_cols. fold mentions.
  split; intros H.
  - destruct (filter mentions (column_names t)) as [|c l] eqn:E.
    + exfalso. apply existsb_exists in H. destruct H as (x & Hx & Mx).
      assert (X : In x (filter mentions (column_names t)))
        by (apply filter_In; split; assumption).
      rewrite E in X. destruct X.
    + rewrite <- E. apply filter_all_true. intros x Hx.
      apply filter_In in Hx. apply has_column_In. tauto.
  - assert (N : forall n, mentions n = true -> has_column t n = false).
    { intros n Mn. destruct (has_column t n) eqn:C; [|reflexivity].
      apply has_column_In in C.
      assert (X : existsb mentions (column_names t) = true)
        by (apply existsb_exists; exists n; split; assumption).
      congruence. }
    replace (filter mentions (column_names t)) with (@nil string).
    + cbn [filter]. rewrite (N "Event context" eq_refl), (N "Event name" eq_refl).
      reflexivity.
    + symmetry. destruct (filter mentions (column_names t)) as [|c l] eqn:E;
        [reflexivity|].
      assert (X : In c (filter mentions (column_names t)))
        by (rewrite E; left; reflexivity).
      apply filter_In in X. destruct X as [X M].
      assert (Y : existsb mentions (column_names t) = true)
        by (apply existsb_exists; exists c; split; assumption).
      congruence.
Qed.

Lemma shown_columns_witness :
  NoDup (column_names (strip_columns strip_blanks padded_log)) /\
  map fst (snd (unique_value_counter strip_blanks padded_log)) =
  ["Event name"; "EVENT context"].
Proof.
  assert (N : NoDup (column_names (strip_columns strip_blanks padded_log))).
  { vm_compute. repeat (constructor; [simpl; intuition discriminate|]). constructor. }
  split; [exact N|].
  exact (proj1 (shown_columns strip_blanks padded_log N) eq_refl).
Defined.
